(** * utils/inference.py: prediction formatting, SHAP bucketing and IOC aggregation

    A shallow embedding of [utils/inference.py] (MITRE technique inference v2)
    and the properties the specification states about it.

    Conventions of the embedding:
    - Python floats that the code only compares ([score], SHAP values) are
      rationals [Q]; the comparisons [<], [>] and [==] of finite floats agree
      with those of the rationals they denote.  NaN and the infinities, which
      a confidence or a rounded SHAP value is not, are outside the model.
    - A Python exception is a value of [exn]; a fallible computation returns
      [result A].
    - [print] appends one entry to a list of printed lines.
    - Dictionaries that are only looked up, or whose iteration order no
      statement depends on, are [gmap]s; the row dictionaries that
      [pd.DataFrame] turns into columns are insertion-ordered association
      lists. *)

From Stdlib Require Import Ascii QArith Qround Lqa.
From Stdlib Require Import DecimalString DecimalN DecimalPos.
From stdpp Require Import gmap strings list fin_maps.

Local Open Scope Z_scope.
Local Open Scope string_scope.

(** ** Exceptions and fallible computations *)

Inductive exn : Type :=
| IndexError (msg : string)
| KeyError (msg : string)
| ValueError (msg : string)
| TypeError (msg : string).

Inductive result (A : Type) : Type :=
| Ok (a : A)
| Raise (e : exn).
Arguments Ok {A} a.
Arguments Raise {A} e.

#[global] Instance result_ret : MRet result := fun A a => Ok a.
#[global] Instance result_bind : MBind result := fun A B k m =>
  match m with
  | Ok a => k a
  | Raise e => Raise e
  end.

#[global] Instance result_fmap : FMap result := fun A B f m =>
  match m with
  | Ok a => Ok (f a)
  | Raise e => Raise e
  end.

Definition is_ok {A : Type} (m : result A) : bool :=
  match m with Ok _ => true | Raise _ => false end.

(** [d[k]] on a read-only dictionary. *)
Definition getitem `{Countable K} {V : Type} (d : gmap K V) (k : K) (what : string)
  : result V :=
  match d !! k with
  | Some v => Ok v
  | None => Raise (KeyError what)
  end.

(** [l[i]] for a non-negative position [i]. *)
Definition list_getitem {A : Type} (l : list A) (i : nat) : result A :=
  match l !! i with
  | Some a => Ok a
  | None => Raise (IndexError "list index out of range")
  end.

(** ** Strings *)

Module PyStr.

(** [str(z)] for an [int], as an f-string renders it. *)
Definition of_int (z : Z) : string := NilZero.string_of_int (Z.to_int z).

(** ASCII characters for which [str.isspace] holds. *)
Definition is_space (a : ascii) : bool :=
  let n := nat_of_ascii a in
  ((9 <=? n)%nat && (n <=? 13)%nat) || ((28 <=? n)%nat && (n <=? 32)%nat).

Fixpoint lstrip (s : string) : string :=
  match s with
  | EmptyString => EmptyString
  | String a r => if is_space a then lstrip r else s
  end.

Fixpoint rstrip (s : string) : string :=
  match s with
  | EmptyString => EmptyString
  | String a r =>
      match rstrip r with
      | EmptyString => if is_space a then EmptyString else String a EmptyString
      | r' => String a r'
      end
  end.

(** [s.strip()] *)
Definition strip (s : string) : string := rstrip (lstrip s).

(** [s.split(c)] for a one-character separator. *)
Fixpoint split (c : ascii) (s : string) : list string :=
  match s with
  | EmptyString => [EmptyString]
  | String a r =>
      if Ascii.eqb a c then EmptyString :: split c r
      else match split c r with
           | h :: t => String a h :: t
           | [] => [String a EmptyString]
           end
  end.

(** [int(s)]: optional surrounding white space, an optional sign, then
    ASCII decimal digits. *)
Definition digits (s : string) : result Z :=
  match NilZero.uint_of_string s with
  | Some d => Ok (Z.of_N (N.of_uint d))
  | None => Raise (ValueError "invalid literal for int() with base 10")
  end.

Definition to_int (s : string) : result Z :=
  match strip s with
  | String "-" r => z ← digits r; Ok (- z)
  | String "+" r => digits r
  | r => digits r
  end.

(** The tokenizer's start-of-word marker, U+0120, in UTF-8. *)
Definition marker_hi : ascii := ascii_of_nat 196.
Definition marker_lo : ascii := ascii_of_nat 160.

(** [re.sub(r'<marker>', '', s)] *)
Fixpoint remove_marker (s : string) : string :=
  match s with
  | EmptyString => EmptyString
  | String a r =>
      match r with
      | String b r' =>
          if Ascii.eqb a marker_hi && Ascii.eqb b marker_lo
          then remove_marker r'
          else String a (remove_marker r)
      | EmptyString => s
      end
  end.

Definition is_digit (a : ascii) : bool :=
  let n := nat_of_ascii a in (48 <=? n)%nat && (n <=? 57)%nat.

Fixpoint all_digits (s : string) : bool :=
  match s with
  | EmptyString => true
  | String a r => is_digit a && all_digits r
  end.

End PyStr.

(** ** Numbers *)

Definition Qltb (x y : Q) : bool :=
  match (x ?= y)%Q with Lt => true | _ => false end.

Definition Qeqb (x y : Q) : bool :=
  match (x ?= y)%Q with Eq => true | _ => false end.

(** [max(l)] of a list of floats: the first of the largest elements. *)
Definition py_max (l : list Q) : result Q :=
  match l with
  | [] => Raise (ValueError "max() arg is an empty sequence")
  | x :: l' => Ok (foldl (fun m y => if Qltb m y then y else m) x l')
  end.

(** Round half to even, as [np.rint]. *)
Definition rint (q : Q) : Z :=
  let f := Qfloor q in
  match (q - inject_Z f ?= 1 # 2)%Q with
  | Lt => f
  | Gt => f + 1
  | Eq => if Z.even f then f else f + 1
  end.

(** [np.round(q, 5)], computed on the rational the float denotes. *)
Definition np_round5 (q : Q) : Q :=
  Qmake (rint (q * inject_Z 100000)) 100000.

(** The elements of [arr] at the positions where [mask] is true. *)
Fixpoint select {A : Type} (arr : list A) (mask : list bool) : list A :=
  match arr, mask with
  | a :: arr', b :: mask' => if b then a :: select arr' mask' else select arr' mask'
  | _, _ => []
  end.

(** [arr[mask]] for a boolean mask: numpy refuses a mask of another length. *)
Definition np_mask {A : Type} (arr : list A) (mask : list bool) : result (list A) :=
  if (length arr =? length mask)%nat
  then Ok (select arr mask)
  else Raise (IndexError "boolean index did not match indexed array along axis 0").

(** [dict(pairs)]: a later pair replaces an earlier one with the same key. *)
Definition dict_of_pairs `{Countable K} {V : Type} (pairs : list (K * V)) : gmap K V :=
  foldl (fun m p => <[p.1 := p.2]> m) ∅ pairs.

(** Iterate [body] over [enumerate(l)] starting at index [i], threading the
    loop state and stopping at the first exception. *)
Fixpoint for_enumerate {S A : Type} (body : S -> nat -> A -> result S)
    (i : nat) (l : list A) (st : S) : result S :=
  match l with
  | [] => Ok st
  | x :: l' => st' ← body st i x; for_enumerate body (Datatypes.S i) l' st'
  end.

(** ** Data *)

Module Prediction.
(** One classifier output [{'label': .., 'score': ..}]; the last three keys
    are absent until [format_predictions] adds them. *)
Record t : Type := mk {
  label : string;
  score : Q;
  technique : option string;
  technique_name : option string;
  webpage_link : option string
}.

Definition raw (l : string) (s : Q) : t := mk l s None None None.

Definition set_technique (v : string) (o : t) : t :=
  mk (label o) (score o) (Some v) (technique_name o) (webpage_link o).
Definition set_technique_name (v : string) (o : t) : t :=
  mk (label o) (score o) (technique o) (Some v) (webpage_link o).
Definition set_webpage_link (v : string) (o : t) : t :=
  mk (label o) (score o) (technique o) (technique_name o) (Some v).
End Prediction.

Module Configs.
(** [configs]: the keys ['score'] and ['ti']. *)
Record t : Type := mk { score : Q; ti : string }.

Definition set_score (v : Q) (c : t) : t := mk v (ti c).
End Configs.

(** [labels]: the two look-up tables. *)
Record Labels : Type := {
  label_to_technique : gmap Z string;
  technique_to_name : gmap string string
}.

(** A per-chunk IOC dictionary: IOC type to IOC values. *)
Abbreviation ioc_dict := (gmap string (list string)).

(** The attributes of [process.ProcessData] that [format_predictions] reads. *)
Record ProcessData : Type := {
  processed_data : list string;
  chunked_data : list string;
  iocs : list ioc_dict
}.

(** The slice [shap_values[0, :, label]] of an explanation. *)
Record Explanation : Type := {
  e_values : list Q;
  e_base_values : Q;
  e_data : list string
}.

(** [shap_base] *)
Record ShapBase : Type := {
  values : list Q;
  base_values : Q;
  data : list string;
  token_processed : list string
}.

(** [shap_contribution] *)
Record ShapContribution : Type := {
  positive : gmap string Q;
  neutral : gmap string Q;
  negative : gmap string Q
}.

(** The values stored in a row dictionary, a data frame or handed to [print]. *)
Inductive cell : Type :=
| CNone
| CInt (z : Z)
| CFloat (q : Q)
| CStr (s : string)
| COutput (o : Prediction.t)
| CIocs (d : ioc_dict)
| CShapBase (b : ShapBase)
| CShapContribution (c : ShapContribution)
| CPairs (l : list (string * Q))
| CNaN.

(** ** Row dictionaries and data frames *)

(** A row dictionary, its items in insertion order. *)
Abbreviation record := (list (string * cell)).

Fixpoint dict_get (k : string) (d : record) : option cell :=
  match d with
  | [] => None
  | (k', v) :: d' => if decide (k = k') then Some v else dict_get k d'
  end.

(** [d[k] = v]: an existing key keeps its place, a new key goes last. *)
Fixpoint dict_set (k : string) (v : cell) (d : record) : record :=
  match d with
  | [] => [(k, v)]
  | (k', v') :: d' =>
      if decide (k = k') then (k, v) :: d' else (k', v') :: dict_set k v d'
  end.

(** A [pd.DataFrame]: the column labels and, per row, one cell per column. *)
Record DataFrame : Type := {
  columns : list string;
  rows : list (list cell)
}.

(** [pd.DataFrame()] *)
Definition DataFrame_empty : DataFrame := {| columns := []; rows := [] |}.

Definition add_column (cols : list string) (k : string) : list string :=
  if decide (k ∈ cols) then cols else (cols ++ [k])%list.

(** [pd.DataFrame(records)]: the columns are the keys in order of first
    appearance; a key a record lacks reads as NaN. *)
Definition DataFrame_of_records (records : list record) : DataFrame :=
  let cols := foldl add_column [] (records ≫= fun r => r.*1) in
  {| columns := cols;
     rows := (fun r => (fun c => default CNaN (dict_get c r)) <$> cols) <$> records |}.

Definition column_index (df : DataFrame) (c : string) : result nat :=
  match list_find (fun c' => c' = c) (columns df) with
  | Some (i, _) => Ok i
  | None => Raise (KeyError c)
  end.

(** [df[cols]] for a list of column labels. *)
Definition df_getitem (df : DataFrame) (cols : list string) : result DataFrame :=
  idx ← mapM (column_index df) cols;
  Ok {| columns := cols;
        rows := (fun r => (fun i => default CNaN (r !! i)) <$> idx) <$> rows df |}.

(** [df.iloc[i]]: a row as a series; a negative [i] counts from the end. *)
Definition iloc (df : DataFrame) (i : Z) : result record :=
  let n := Z.of_nat (length (rows df)) in
  if ((- n <=? i) && (i <? n))%Z then
    match rows df !! Z.to_nat (if (i <? 0)%Z then (i + n)%Z else i) with
    | Some r => Ok (zip (columns df) r)
    | None => Raise (IndexError "single positional indexer is out-of-bounds")
    end
  else Raise (IndexError "single positional indexer is out-of-bounds").

(** [series[k]] *)
Definition series_getitem (s : record) (k : string) : result cell :=
  match dict_get k s with
  | Some v => Ok v
  | None => Raise (KeyError k)
  end.

(** [df.empty] *)
Definition df_empty (df : DataFrame) : bool :=
  (length (rows df) =? 0)%nat || (length (columns df) =? 0)%nat.

(** [len(df)] *)
Definition df_len (df : DataFrame) : nat := length (rows df).

(** ** The pipelines *)

(** What the code writes to its console: [print(args)] and the rendering
    call [shap.plots.text]. *)
Inductive effect : Type :=
| Print (args : list cell)
| ShapPlotsText (e : Explanation).

Definition nl : string := String (ascii_of_nat 10) EmptyString.

(** [InferenceClassificationPipeline]: the two classifiers [__init__] builds,
    each an opaque scorer. *)
Record InferenceClassificationPipeline : Type := {
  classifier_all_scores : list string -> list (list Prediction.t);
  classifier_max_scores : list string -> list Prediction.t
}.

Definition InferenceClassificationPipeline_go
    (self : InferenceClassificationPipeline) (data : list string)
    (return_all_scores : bool)
  : if return_all_scores then list (list Prediction.t) else list Prediction.t :=
  match return_all_scores as b
        return (if b then list (list Prediction.t) else list Prediction.t) with
  | true => classifier_all_scores self data
  | false => classifier_max_scores self data
  end.

Definition get_softmax_scores
    (self : InferenceClassificationPipeline) (data : list string) : list (list Q) :=
  let outputs : list (list Prediction.t) :=
    InferenceClassificationPipeline_go self data true in
  (fun output : list Prediction.t => Prediction.score <$> output) <$> outputs.

Record ShapPipeline : Type := {
  classifier : list string -> list Prediction.t;
  explainer : string -> string -> Explanation
}.

(** The report columns, in the order [format_predictions] selects them. *)
Definition report_columns : list string :=
  ["chunk_#"; "sentences_#"; "threat_intel"; "processed_threat_intel"; "output";
   "model"; "iocs"; "shap_base"; "shap_contribution"].

Definition relax_warning : string :=
  "The confidence score for all predictions is lower than the confidence threshold. "
  ++ nl ++ "Resetting confidence threshold to 0.0.".

Definition webpage (technique : string) : string :=
  "https://attack.mitre.org/techniques/" ++ technique ++ "/".

(** [super_dict[k] = list(set(super_dict[k] + v))]; a key [super_dict] lacks
    reads as the empty list. *)
Definition merge_step (super_dict : ioc_dict) (kv : string * list string) : ioc_dict :=
  <[kv.1 := elements (list_to_set ((default [] (super_dict !! kv.1) ++ kv.2)%list)
                        : gset string)]> super_dict.

(** [for k, v in d.items(): ...] *)
Definition merge_ioc_dict (super_dict : ioc_dict) (d : ioc_dict) : ioc_dict :=
  foldl merge_step super_dict (map_to_list d).

Definition ioc_super_dict (ioc_dicts : list ioc_dict) : ioc_dict :=
  foldl merge_ioc_dict ∅ ioc_dicts.

(** [transform_list_of_ioc_dicts]: the loop that fills [super_list]. *)
Definition ioc_super_list (super_dict : ioc_dict) : list record :=
  map_to_list super_dict ≫= fun kl =>
    if (0 <? length kl.2)%nat
    then (fun ioc => [("IOC_Type", CStr kl.1); ("IOC_Value", CStr ioc)]) <$> kl.2
    else [].

Definition transform_list_of_ioc_dicts (ioc_dicts : list ioc_dict) : DataFrame :=
  let super_list := ioc_super_list (ioc_super_dict ioc_dicts) in
  if (0 <? length super_list)%nat
  then DataFrame_of_records super_list
  else DataFrame_empty.

(** Console output together with the result: the effects of a call that
    raises are those it produced before the exception. *)
Definition io (A : Type) : Type := (result A * list effect)%type.

#[global] Instance io_ret : MRet io := fun A a => (Ok a, []).
#[global] Instance io_bind : MBind io := fun A B k m =>
  match m.1 with
  | Ok a => let r := k a in (r.1, (m.2 ++ r.2)%list)
  | Raise e => (Raise e, m.2)
  end.

Definition print (args : list cell) : io unit := (Ok tt, [Print args]).
Definition lift {A : Type} (r : result A) : io A := (r, []).

(** [for x in l: body(x)] *)
Fixpoint io_for {A : Type} (l : list A) (body : A -> io unit) : io unit :=
  match l with
  | [] => mret tt
  | x :: l' => _ ← body x; io_for l' body
  end.

Section Inference.

(** [shap.Explainer(classifier)], read as: text and target label to the
    slice [explainer([text])[0, :, label]]. *)
Variable shap_Explainer :
  (list string -> list Prediction.t) -> string -> string -> Explanation.

(** [constants.chunk_num_sentences] *)
Variable chunk_num_sentences : Z.

(** [str(x)] for the objects whose rendering is left to Python. *)
Variable py_repr : cell -> string.

Definition ShapPipeline_init (classifier : list string -> list Prediction.t)
  : ShapPipeline :=
  {| classifier := classifier; explainer := shap_Explainer classifier |}.

Definition ShapPipeline_go (self : ShapPipeline) (text : string)
    (output : Prediction.t) : result (ShapBase * ShapContribution) :=
  let shap_for_text := explainer self text (Prediction.label output) in
  let shap_base :=
    {| values := np_round5 <$> e_values shap_for_text;
       base_values := e_base_values shap_for_text;
       data := e_data shap_for_text;
       token_processed :=
         (fun el => PyStr.remove_marker (PyStr.strip el)) <$> e_data shap_for_text |} in
  let positive_indices := (fun v => Qltb 0 v) <$> values shap_base in
  positive_values ← np_mask (values shap_base) positive_indices;
  positive_data ← np_mask (token_processed shap_base) positive_indices;
  let neutral_indices := (fun v => Qeqb v 0) <$> values shap_base in
  neutral_values ← np_mask (values shap_base) neutral_indices;
  neutral_data ← np_mask (token_processed shap_base) neutral_indices;
  let negative_indices := (fun v => Qltb v 0) <$> values shap_base in
  negative_values ← np_mask (values shap_base) negative_indices;
  negative_data ← np_mask (token_processed shap_base) negative_indices;
  let shap_contribution :=
    {| positive := dict_of_pairs (zip positive_data positive_values);
       neutral := dict_of_pairs (zip neutral_data neutral_values);
       negative := dict_of_pairs (zip negative_data negative_values) |} in
  Ok (shap_base, shap_contribution).

(** The state of the loop of [format_predictions]: [outputs], whose
    entries the loop updates in place, and [inference_list]. *)
Definition loop_state : Type := (list Prediction.t * list record)%type.

(** One iteration of [for i, ti_chunk in enumerate(ti_data)]. *)
Definition format_predictions_body (configs : Configs.t)
    (processed_data_object : ProcessData) (labels : Labels)
    (shap_obj : ShapPipeline)
    (st : loop_state) (i : nat) (ti_chunk : string) : result loop_state :=
  let '(outputs, inference_list) := st in
  output_i ← list_getitem outputs i;
  if Qltb (Prediction.score output_i) (Configs.score configs) then Ok st
  else
    processed_i ← list_getitem (processed_data processed_data_object) i;
    iocs_i ← list_getitem (iocs processed_data_object) i;
    let inference_dict : record :=
      [("chunk_#", CInt (Z.of_nat i + 1));
       ("sentences_#",
         CStr (PyStr.of_int (Z.of_nat i * chunk_num_sentences + 1) ++ "-"
               ++ PyStr.of_int (Z.of_nat i * chunk_num_sentences + 3)));
       ("threat_intel", CStr ti_chunk);
       ("processed_threat_intel", CStr processed_i);
       ("model", CStr "distilgpt2-512");
       ("iocs", CIocs iocs_i);
       ("output", CNone);
       ("shap_base", CNone);
       ("shap_contribution", CNone)] in
    index ← list_getitem (PyStr.split "_" (Prediction.label output_i)) 1;
    class ← PyStr.to_int index;
    technique ← getitem (label_to_technique labels) class (PyStr.of_int class);
    let outputs := alter (Prediction.set_technique technique) i outputs in
    name ← getitem (technique_to_name labels) technique technique;
    let outputs := alter (Prediction.set_technique_name name) i outputs in
    let outputs := alter (Prediction.set_webpage_link (webpage technique)) i outputs in
    output_i ← list_getitem outputs i;
    shap ← ShapPipeline_go shap_obj ti_chunk output_i;
    let inference_dict := dict_set "output" (COutput output_i) inference_dict in
    let inference_dict := dict_set "shap_base" (CShapBase shap.1) inference_dict in
    let inference_dict :=
      dict_set "shap_contribution" (CShapContribution shap.2) inference_dict in
    Ok (outputs, (inference_list ++ [inference_dict])%list).

(** [format_predictions]: the result or the exception, the caller's
    [configs] object as the call leaves it, and what was printed. *)
Definition format_predictions (configs : Configs.t)
    (processed_data_object : ProcessData) (labels : Labels)
    (model : InferenceClassificationPipeline)
  : result (DataFrame * DataFrame) * Configs.t * list effect :=
  let outputs : list Prediction.t :=
    InferenceClassificationPipeline_go model (processed_data processed_data_object) false in
  let classifier := classifier_max_scores model in
  let ti_data := chunked_data processed_data_object in
  let shap_obj := ShapPipeline_init classifier in
  match py_max (Prediction.score <$> outputs) with
  | Raise e => (Raise e, configs, [])
  | Ok best =>
      let '(configs, stdout) :=
        if Qltb best (Configs.score configs)
        then (Configs.set_score 0 configs, [Print [CStr relax_warning]])
        else (configs, []) in
      let res :=
        st ← for_enumerate
               (format_predictions_body configs processed_data_object labels shap_obj)
               0 ti_data (outputs, []);
        let inference_list := st.2 in
        inference_df ←
          (if (0 <? length inference_list)%nat
           then df_getitem (DataFrame_of_records inference_list) report_columns
           else Ok DataFrame_empty);
        let iocs_df := transform_list_of_ioc_dicts (iocs processed_data_object) in
        Ok (inference_df, iocs_df) in
      (res, configs, stdout)
  end.

Definition process_shap_values (shap_dict : ShapBase) : Explanation :=
  {| e_values := values shap_dict;
     e_data := PyStr.remove_marker <$> data shap_dict;
     e_base_values := base_values shap_dict |}.

(** An f-string field. *)
Definition fmt (c : cell) : string :=
  match c with
  | CStr s => s
  | CInt z => PyStr.of_int z
  | CNone => "None"
  | _ => py_repr c
  end.

(** The [try] block of [_process_shap_explainability_for_row]. *)
Definition row_fields (inference_df : DataFrame) (row_index : Z)
  : result (cell * cell * cell * cell * cell * cell) :=
  data ← (r ← iloc inference_df row_index; series_getitem r "threat_intel");
  processed_data ←
    (r ← iloc inference_df row_index; series_getitem r "processed_threat_intel");
  shap_values ← (r ← iloc inference_df row_index; series_getitem r "shap_base");
  output ← (r ← iloc inference_df row_index; series_getitem r "output");
  contribution ←
    (r ← iloc inference_df row_index; series_getitem r "shap_contribution");
  sentences_no ← (r ← iloc inference_df row_index; series_getitem r "sentences_#");
  Ok (data, processed_data, shap_values, output, contribution, sentences_no).

Definition str_add (c : cell) (s : string) : result cell :=
  match c with
  | CStr d => Ok (CStr (d ++ s))
  | _ => Raise (TypeError "unsupported operand type(s) for +")
  end.

Definition as_shap_base (c : cell) : result ShapBase :=
  match c with
  | CShapBase b => Ok b
  | _ => Raise (TypeError "shap_base is not subscriptable")
  end.

Definition as_contribution (c : cell) : result ShapContribution :=
  match c with
  | CShapContribution b => Ok b
  | _ => Raise (TypeError "shap_contribution is not subscriptable")
  end.

Definition _process_shap_explainability_for_row (inference_df : DataFrame)
    (row_index : Z) : io unit :=
  match row_fields inference_df row_index with
  | Raise _ =>
      lift (Raise (IndexError
              ("Index " ++ PyStr.of_int row_index ++ " is not in the dataframe.")))
  | Ok (data, processed_data, shap_values, output, contribution, sentences_no) =>
      _ ← print [CStr ("Sentences # : " ++ fmt sentences_no ++ " " ++ nl)];
      _ ← print [CStr "Threat Intel Data: "];
      line ← lift (str_add data nl);
      _ ← print [line];
      _ ← print [CStr "Processed Data: "];
      line ← lift (str_add processed_data nl);
      _ ← print [line];
      _ ← print [CStr "Predicted Label: "];
      _ ← print [output];
      _ ← print [];
      shap_base ← lift (as_shap_base shap_values);
      let shap_object := process_shap_values shap_base in
      contribution ← lift (as_contribution contribution);
      let positive_contribution := size (positive contribution) in
      let negative_contribution := size (negative contribution) in
      _ ← (if (positive_contribution =? 0)%nat && (negative_contribution =? 0)%nat
           then print [CStr "Insufficient shap data for explainability."]
           else
             _ ← print [CStr ("Shap Legend: {Red: Positive Contribution to Predicted Label, "
                            ++ "Blue: Negative Contribution to Predicted Label} " ++ nl)];
             _ ← print [CStr "Shap Text Plot: "];
             _ ← ((Ok tt, [ShapPlotsText shap_object]) : io unit);
             _ ← print [CStr "Positive SHAP Contribution to prediction: "];
             _ ← print [CPairs (map_to_list (positive contribution))];
             _ ← print [];
             _ ← print [CStr "Negative SHAP Contribution to prediction: "];
             _ ← print [CPairs (map_to_list (negative contribution))];
             _ ← print [];
             _ ← print [CStr "Neutral SHAP Contribution to prediction: "];
             _ ← print [CPairs (map_to_list (neutral contribution))];
             print []);
      print [CStr "**************************************************"]
  end.

Definition print_detailed_report (inference_df : DataFrame) (configs : Configs.t)
  : io unit :=
  _ ← print [CStr "Threat Intel Data: "];
  _ ← print [CStr (Configs.ti configs); CStr nl];
  _ ← print [CStr "Confidence Score Threshold: "];
  _ ← print [CFloat (Configs.score configs); CStr nl];
  _ ← print [CStr "**************************************************"];
  if df_empty inference_df
  then print [CStr ("No MITRE Techniques inferred from the Threat Intel data with "
                 ++ "configured confidence threshold :( " ++ nl
                 ++ " Consider reducing your score threshold, and re-run!")]
  else
    _ ← print [CStr ("Shape of Inference DF: ("
                     ++ PyStr.of_int (Z.of_nat (length (rows inference_df))) ++ ", "
                     ++ PyStr.of_int (Z.of_nat (length (columns inference_df))) ++ ")")];
    io_for (seq 0 (df_len inference_df))
      (fun row_index =>
         _process_shap_explainability_for_row inference_df (Z.of_nat row_index)).

(** *** The loop of [format_predictions], chunk by chunk

    The functions below restate the loop as a recursion over the chunks
    that reads the classifier outputs without updating them; the lemma
    [format_predictions_unfold] proves that [format_predictions] computes
    exactly this. *)

(** Lines 124 to 127: the enriched prediction. *)
Definition enrich (labels : Labels) (o : Prediction.t) : result Prediction.t :=
  index ← list_getitem (PyStr.split "_" (Prediction.label o)) 1;
  class ← PyStr.to_int index;
  technique ← getitem (label_to_technique labels) class (PyStr.of_int class);
  name ← getitem (technique_to_name labels) technique technique;
  Ok (Prediction.set_webpage_link (webpage technique)
        (Prediction.set_technique_name name
           (Prediction.set_technique technique o))).

(** What one surviving chunk contributes to the report. *)
Record row_data : Type := {
  r_index : nat;
  r_threat_intel : string;
  r_processed : string;
  r_iocs : ioc_dict;
  r_output : Prediction.t;
  r_shap_base : ShapBase;
  r_shap_contribution : ShapContribution
}.

Definition sentences (i : nat) : string :=
  PyStr.of_int (Z.of_nat i * chunk_num_sentences + 1) ++ "-"
  ++ PyStr.of_int (Z.of_nat i * chunk_num_sentences + 3).

(** [inference_dict] as appended to [inference_list]. *)
Definition row_dict (r : row_data) : record :=
  [("chunk_#", CInt (Z.of_nat (r_index r) + 1));
   ("sentences_#", CStr (sentences (r_index r)));
   ("threat_intel", CStr (r_threat_intel r));
   ("processed_threat_intel", CStr (r_processed r));
   ("model", CStr "distilgpt2-512");
   ("iocs", CIocs (r_iocs r));
   ("output", COutput (r_output r));
   ("shap_base", CShapBase (r_shap_base r));
   ("shap_contribution", CShapContribution (r_shap_contribution r))].

(** The cells of a report row, in the order of [report_columns]. *)
Definition row_cells (r : row_data) : list cell :=
  [CInt (Z.of_nat (r_index r) + 1);
   CStr (sentences (r_index r));
   CStr (r_threat_intel r);
   CStr (r_processed r);
   COutput (r_output r);
   CStr "distilgpt2-512";
   CIocs (r_iocs r);
   CShapBase (r_shap_base r);
   CShapContribution (r_shap_contribution r)].

Definition make_row (processed_data_object : ProcessData) (labels : Labels)
    (shap_obj : ShapPipeline) (i : nat) (ti_chunk : string) (o : Prediction.t)
  : result row_data :=
  processed_i ← list_getitem (processed_data processed_data_object) i;
  iocs_i ← list_getitem (iocs processed_data_object) i;
  o' ← enrich labels o;
  shap ← ShapPipeline_go shap_obj ti_chunk o';
  Ok {| r_index := i; r_threat_intel := ti_chunk; r_processed := processed_i;
        r_iocs := iocs_i; r_output := o'; r_shap_base := shap.1;
        r_shap_contribution := shap.2 |}.

Fixpoint surviving_rows (threshold : Q) (processed_data_object : ProcessData)
    (labels : Labels) (shap_obj : ShapPipeline) (outputs : list Prediction.t)
    (i : nat) (ti_data : list string) : result (list row_data) :=
  match ti_data with
  | [] => Ok []
  | ti_chunk :: ti_data' =>
      o ← list_getitem outputs i;
      if Qltb (Prediction.score o) threshold
      then surviving_rows threshold processed_data_object labels shap_obj outputs
             (S i) ti_data'
      else
        r ← make_row processed_data_object labels shap_obj i ti_chunk o;
        rs ← surviving_rows threshold processed_data_object labels shap_obj outputs
               (S i) ti_data';
        Ok (r :: rs)
  end.

(** The report built from the surviving rows (lines 136 to 143). *)
Definition report_of (rs : list row_data) : DataFrame :=
  match rs with
  | [] => DataFrame_empty
  | _ => {| columns := report_columns; rows := row_cells <$> rs |}
  end.

(** The threshold the loop filters with: [configs['score']] after line 106. *)
Definition effective_threshold (configs : Configs.t) (scores : list Q) : result Q :=
  best ← py_max scores;
  Ok (if Qltb best (Configs.score configs) then 0%Q else Configs.score configs).

(** The filter in the specification's words: chunk [i] is kept when its
    confidence is greater than or equal to the threshold. *)
Definition retained (threshold : Q) (outputs : list Prediction.t) (i : nat) : bool :=
  match outputs !! i with
  | Some o => Qle_bool threshold (Prediction.score o)
  | None => false
  end.

End Inference.

(** ** The IOC table, read back *)

(** The (type, value) pairs of [super_dict], as [super_list] walks them. *)
Definition ioc_pairs (super_dict : ioc_dict) : list (string * string) :=
  map_to_list super_dict ≫= fun kl => (fun ioc => (kl.1, ioc)) <$> kl.2.

Definition ioc_row (p : string * string) : list cell := [CStr p.1; CStr p.2].

Definition ioc_record (p : string * string) : record :=
  [("IOC_Type", CStr p.1); ("IOC_Value", CStr p.2)].

(** [df.to_dict('records')] *)
Definition df_records (df : DataFrame) : list record :=
  (fun r => zip (columns df) r) <$> rows df.

(** A row of the IOC table as the IOC dictionary of one chunk. *)
Definition ioc_dict_of_record (r : record) : ioc_dict :=
  match dict_get "IOC_Type" r, dict_get "IOC_Value" r with
  | Some (CStr k), Some (CStr v) => {[ k := [v] ]}
  | _, _ => ∅
  end.

(** ** The [shap_base] of an explanation *)

(** [shap_base] as [ShapPipeline.go] builds it from the explainer's slice. *)
Definition shap_base_of (e : Explanation) : ShapBase :=
  {| values := np_round5 <$> e_values e;
     base_values := e_base_values e;
     data := e_data e;
     token_processed :=
       (fun el => PyStr.remove_marker (PyStr.strip el)) <$> e_data e |}.

(** ** The buckets of a token sequence and its contributions *)

Definition positive_of (tokens : list string) (vals : list Q) : gmap string Q :=
  dict_of_pairs (List.filter (fun p => Qltb 0 p.2) (zip tokens vals)).

Definition neutral_of (tokens : list string) (vals : list Q) : gmap string Q :=
  dict_of_pairs (List.filter (fun p => Qeqb p.2 0) (zip tokens vals)).

Definition negative_of (tokens : list string) (vals : list Q) : gmap string Q :=
  dict_of_pairs (List.filter (fun p => Qltb p.2 0) (zip tokens vals)).

(** ** The bucket invariant in the specification's words *)

Definition exactly_one (P Q R : Prop) : Prop :=
  (P /\ ~ Q /\ ~ R) \/ (~ P /\ Q /\ ~ R) \/ (~ P /\ ~ Q /\ R).

(** The number of distinct token strings. *)
Definition distinct_tokens (tokens : list string) : nat :=
  size (list_to_set tokens : gset string).

Definition bucket_signs (c : ShapContribution) : Prop :=
  (forall t v, positive c !! t = Some v -> (0 < v)%Q)
  /\ (forall t v, negative c !! t = Some v -> (v < 0)%Q)
  /\ (forall t v, neutral c !! t = Some v -> (v == 0)%Q).

Definition in_some_bucket (c : ShapContribution) (t : string) : Prop :=
  is_Some (positive c !! t) \/ is_Some (neutral c !! t) \/ is_Some (negative c !! t).

Definition in_one_bucket (c : ShapContribution) (t : string) : Prop :=
  exactly_one (is_Some (positive c !! t)) (is_Some (neutral c !! t))
    (is_Some (negative c !! t)).

Definition bucket_sizes (c : ShapContribution) : nat :=
  (size (positive c) + size (neutral c) + size (negative c))%nat.

(** The three buckets partition the tokens exactly. *)
Definition exact_partition (tokens : list string) (c : ShapContribution) : Prop :=
  bucket_signs c
  /\ (forall t, t ∈ tokens -> in_one_bucket c t)
  /\ bucket_sizes c = distinct_tokens tokens.

(** No token string occurs with two contributions of different sign. *)
Definition same_sign_per_token (tokens : list string) (vals : list Q) : Prop :=
  forall t v1 v2, (t, v1) ∈ zip tokens vals -> (t, v2) ∈ zip tokens vals ->
    (v1 ?= 0)%Q = (v2 ?= 0)%Q.

(** ** Characters of a string *)

(** [c in s] for a one-character [c]. *)
Fixpoint str_contains (c : ascii) (s : string) : bool :=
  match s with
  | EmptyString => false
  | String a r => Ascii.eqb a c || str_contains c r
  end.

(** ** Concrete inputs used by the examples below *)

Module Inputs.

(** An explainer that answers every text with the same three tokens. *)
Definition explainer3 (_ : list string -> list Prediction.t) (_ _ : string)
  : Explanation :=
  {| e_values := [(1 # 2)%Q; 0%Q; (-1 # 3)%Q];
     e_base_values := 0%Q;
     e_data := ["a"; " b"; "c"] |}.

(** The text "a a": the token "a" once for and once against the label. *)
Definition explainer_aa (_ : list string -> list Prediction.t) (_ _ : string)
  : Explanation :=
  {| e_values := [1%Q; (-1)%Q];
     e_base_values := 0%Q;
     e_data := ["a"; String PyStr.marker_hi (String PyStr.marker_lo "a")] |}.

Definition shap_aa : ShapPipeline := ShapPipeline_init explainer_aa (fun _ => []).
Definition shap3 : ShapPipeline := ShapPipeline_init explainer3 (fun _ => []).

Definition shap_base3 : ShapBase :=
  {| values := np_round5 <$> [(1 # 2)%Q; 0%Q; (-1 # 3)%Q];
     base_values := 0%Q;
     data := ["a"; " b"; "c"];
     token_processed := ["a"; "b"; "c"] |}.

Definition shap_contribution3 : ShapContribution :=
  {| positive := {[ "a" := np_round5 (1 # 2) ]};
     neutral := {[ "b" := np_round5 0 ]};
     negative := {[ "c" := np_round5 (-1 # 3) ]} |}.

Definition model_of (outputs : list Prediction.t) : InferenceClassificationPipeline :=
  {| classifier_all_scores := fun _ => [];
     classifier_max_scores := fun _ => outputs |}.

Definition outputs2 : list Prediction.t :=
  [Prediction.raw "LABEL_3" (92 # 100); Prediction.raw "LABEL_1" (10 # 100)].

Definition chunks2 : ProcessData :=
  {| processed_data := ["p0"; "p1"];
     chunked_data := ["c0"; "c1"];
     iocs := [ {[ "ip" := ["1.1.1.1"] ]}; {[ "ip" := ["1.1.1.1"; "2.2.2.2"] ]} ] |}.

Definition no_chunks : ProcessData :=
  {| processed_data := []; chunked_data := []; iocs := [] |}.

(** Predictions for a text that was cut into no chunk. *)
Definition unchunked : ProcessData :=
  {| processed_data := ["p0"; "p1"]; chunked_data := []; iocs := [] |}.

Definition labels3 : Labels :=
  {| label_to_technique := {[ 3 := "T1566" ]};
     technique_to_name := {[ "T1566" := "Phishing" ]} |}.

Definition labels31 : Labels :=
  {| label_to_technique := {[ 3 := "T1566"; 1 := "T1059" ]};
     technique_to_name :=
       {[ "T1566" := "Phishing";
          "T1059" := "Command and Scripting Interpreter" ]} |}.

Definition configs_050 : Configs.t := Configs.mk (5 # 10) "doc".
Definition configs_095 : Configs.t := Configs.mk (95 # 100) "doc".

Definition call := (result (DataFrame * DataFrame) * Configs.t * list effect)%type.

(** Threshold 0.5, label map {3: T1566}. *)
Definition call_050 : call :=
  format_predictions explainer3 3 configs_050 chunks2 labels3 (model_of outputs2).

(** Threshold 0.95, both class indices mapped. *)
Definition call_095 : call :=
  format_predictions explainer3 3 configs_095 chunks2 labels31 (model_of outputs2).

(** Threshold 0.95, label map {3: T1566}. *)
Definition call_095_unmapped : call :=
  format_predictions explainer3 3 configs_095 chunks2 labels3 (model_of outputs2).

Definition report_of_call (c : call) : DataFrame :=
  match c.1.1 with Ok (df, _) => df | Raise _ => DataFrame_empty end.

Definition iocs_of_call (c : call) : DataFrame :=
  match c.1.1 with Ok (_, iocs_df) => iocs_df | Raise _ => DataFrame_empty end.

Definition enriched3 : Prediction.t :=
  Prediction.mk "LABEL_3" (92 # 100) (Some "T1566") (Some "Phishing")
    (Some "https://attack.mitre.org/techniques/T1566/").

(** The token "a" twice, both times for the label. *)
Definition explainer_dup (_ : list string -> list Prediction.t) (_ _ : string)
  : Explanation :=
  {| e_values := [1%Q; 2%Q]; e_base_values := 0%Q; e_data := ["a"; "a"] |}.

Definition shap_dup : ShapPipeline := ShapPipeline_init explainer_dup (fun _ => []).



(** One token, two values. *)
Definition explainer_ragged (_ : list string -> list Prediction.t) (_ _ : string)
  : Explanation :=
  {| e_values := [1%Q; 2%Q]; e_base_values := 0%Q; e_data := ["a"] |}.

Definition shap_ragged : ShapPipeline :=
  ShapPipeline_init explainer_ragged (fun _ => []).

(** The row of chunk 0 in the report of [call_050]. *)
Definition row_050 : list cell :=
  [CInt 1; CStr "1-3"; CStr "c0"; CStr "p0"; COutput enriched3;
   CStr "distilgpt2-512"; CIocs {[ "ip" := ["1.1.1.1"] ]};
   CShapBase shap_base3; CShapContribution shap_contribution3].

(** A frame without the text columns. *)
Definition narrow_frame : DataFrame :=
  {| columns := ["chunk_#"; "sentences_#"]; rows := [[CInt 1; CStr "1-3"]] |}.

(** Two chunks, one prediction. *)
Definition call_short : call :=
  format_predictions explainer3 3 configs_050 chunks2 labels3
    (model_of [Prediction.raw "LABEL_3" (92 # 100)]).

Definition configs_005 : Configs.t := Configs.mk (5 # 100) "doc".

(** Thresholds 0.05 and 0.5, both class indices mapped. *)
Definition call_005 : call :=
  format_predictions explainer3 3 configs_005 chunks2 labels31 (model_of outputs2).

Definition call_050_mapped : call :=
  format_predictions explainer3 3 configs_050 chunks2 labels31 (model_of outputs2).

End Inputs.

(** * Properties *)

(** ** Comparisons and [max] *)

Lemma Qltb_lt (x y : Q) : Qltb x y = true <-> (x < y)%Q.
Proof.
  unfold Qltb. rewrite Qlt_alt. destruct (x ?= y)%Q; split; congruence.
Qed.

Lemma Qltb_ge (x y : Q) : Qltb x y = false <-> (y <= x)%Q.
Proof.
  split; intros H.
  - apply Qnot_lt_le. intros Hlt. apply Qltb_lt in Hlt. congruence.
  - destruct (Qltb x y) eqn:E; [|done].
    apply Qltb_lt in E. exfalso. exact (Qlt_not_le _ _ E H).
Qed.

Lemma Qeqb_eq (x y : Q) : Qeqb x y = true <-> (x == y)%Q.
Proof.
  unfold Qeqb. rewrite Qeq_alt. destruct (x ?= y)%Q; split; congruence.
Qed.

Lemma foldl_max_ge (l : list Q) (x : Q) :
  (x <= foldl (fun m y => if Qltb m y then y else m) x l)%Q
  /\ Forall (fun y => (y <= foldl (fun m y => if Qltb m y then y else m) x l)%Q) l.
Proof.
  revert x. induction l as [|y l IH]; intros x; simpl.
  - split; [apply Qle_refl | constructor].
  - destruct (Qltb x y) eqn:E.
    + destruct (IH y) as [H1 H2]. apply Qltb_lt in E.
      split; [|constructor; done].
      apply Qle_trans with y; [by apply Qlt_le_weak | done].
    + destruct (IH x) as [H1 H2]. apply Qltb_ge in E.
      split; [done|]. constructor; [|done].
      by apply Qle_trans with x.
Qed.

Lemma foldl_max_elem (l : list Q) (x : Q) :
  foldl (fun m y => if Qltb m y then y else m) x l ∈ x :: l.
Proof.
  revert x. induction l as [|y l IH]; intros x; simpl.
  - set_solver.
  - destruct (Qltb x y).
    + apply elem_of_cons; right. apply IH.
    + destruct (proj1 (elem_of_cons _ _ _) (IH x)) as [-> | H].
      * apply elem_of_cons; by left.
      * do 2 (apply elem_of_cons; right). done.
Qed.

(** [max] returns an element of the list that bounds all of them. *)
Lemma py_max_spec (l : list Q) (m : Q) :
  py_max l = Ok m -> m ∈ l /\ Forall (fun y => (y <= m)%Q) l.
Proof.
  destruct l as [|x l]; [done|]. simpl. intros [= <-].
  split; [apply foldl_max_elem|].
  destruct (foldl_max_ge l x). by constructor.
Qed.

Lemma py_max_nonempty (l : list Q) : l <> [] -> exists m, py_max l = Ok m.
Proof. destruct l; [done|]. eauto. Qed.

Example split_label : PyStr.split "_" "LABEL_3" = ["LABEL"; "3"].
Proof. reflexivity. Qed.

Example to_int_3 : PyStr.to_int " 12 " = Ok 12.
Proof. reflexivity. Qed.

Example to_int_neg : PyStr.to_int "-7" = Ok (-7).
Proof. reflexivity. Qed.

Example to_int_bad : is_ok (PyStr.to_int "x1") = false.
Proof. reflexivity. Qed.

Example of_int_ex : PyStr.of_int 0 = "0" /\ PyStr.of_int (-15) = "-15" /\ PyStr.of_int 204 = "204".
Proof. repeat split. Qed.

Example strip_ex : PyStr.strip "  a b  " = "a b".
Proof. reflexivity. Qed.

(** ** The loop of [format_predictions] *)

Lemma list_getitem_Ok {A : Type} (l : list A) (i : nat) (a : A) :
  list_getitem l i = Ok a <-> l !! i = Some a.
Proof. unfold list_getitem. destruct (l !! i); split; congruence. Qed.

Lemma list_alter_insert {A : Type} (f : A -> A) (l : list A) (i : nat) (a : A) :
  l !! i = Some a -> alter f i l = <[i := f a]> l.
Proof.
  revert i. induction l as [|x l IH]; intros [|i] H; simplify_eq/=; [done|].
  f_equal. by apply IH.
Qed.

Section Loop.

Variable chunk_num_sentences : Z.

(** One iteration either skips the chunk or appends its row and stores the
    enriched prediction back at position [i]. *)
Lemma format_predictions_body_unfold configs pdo labels shap_obj outputs acc i chunk :
  format_predictions_body chunk_num_sentences configs pdo labels shap_obj (outputs, acc) i chunk =
    (o ← list_getitem outputs i;
     if Qltb (Prediction.score o) (Configs.score configs) then Ok (outputs, acc)
     else
       r ← make_row pdo labels shap_obj i chunk o;
       Ok (<[i := r_output r]> outputs,
           (acc ++ [row_dict chunk_num_sentences r])%list)).
Proof.
  unfold format_predictions_body, make_row, enrich.
  destruct (list_getitem outputs i) as [o|] eqn:Ho; cbn; [|done].
  apply list_getitem_Ok in Ho.
  destruct (Qltb _ _); [done|].
  destruct (list_getitem (processed_data pdo) i) as [p|]; cbn; [|done].
  destruct (list_getitem (iocs pdo) i) as [c|]; cbn; [|done].
  destruct (list_getitem (PyStr.split _ _) 1) as [ix|]; cbn; [|done].
  destruct (PyStr.to_int ix) as [cl|]; cbn; [|done].
  destruct (getitem (label_to_technique labels) cl _) as [t|]; cbn; [|done].
  destruct (getitem (technique_to_name labels) t _) as [n|]; cbn; [|done].
  assert (Hlt : (i < length outputs)%nat) by (by eapply lookup_lt_Some).
  rewrite (list_alter_insert _ _ _ _ Ho).
  rewrite (list_alter_insert _ (<[i:=_]> outputs) i _
             (list_lookup_insert_eq _ _ _ Hlt)), list_insert_insert_eq.
  rewrite (list_alter_insert _ (<[i:=_]> outputs) i _
             (list_lookup_insert_eq _ _ _ Hlt)), list_insert_insert_eq.
  rewrite (proj2 (list_getitem_Ok _ _ _) (list_lookup_insert_eq _ _ _ Hlt)). cbn.
  destruct (ShapPipeline_go _ _ _) as [[sb sc]|]; cbn; done.
Qed.

Lemma surviving_rows_ext threshold pdo labels shap_obj outputs outputs' i chunks :
  (forall j, (i <= j)%nat -> outputs' !! j = outputs !! j) ->
  surviving_rows threshold pdo labels shap_obj outputs' i chunks
  = surviving_rows threshold pdo labels shap_obj outputs i chunks.
Proof.
  revert i. induction chunks as [|c chunks IH]; intros i H; simpl; [done|].
  unfold list_getitem. rewrite (H i) by lia.
  destruct (outputs !! i) as [o|]; cbn; [|done].
  rewrite IH by (intros j Hj; apply H; lia). done.
Qed.

(** The loop appends to [inference_list] exactly the surviving rows. *)
Lemma for_enumerate_rows configs pdo labels shap_obj chunks i outputs acc :
  snd <$> for_enumerate (format_predictions_body chunk_num_sentences configs pdo labels shap_obj) i chunks (outputs, acc)
  = (fun rs => (acc ++ (row_dict chunk_num_sentences <$> rs))%list)
      <$> surviving_rows (Configs.score configs) pdo labels shap_obj outputs i chunks.
Proof.
  revert i outputs acc.
  induction chunks as [|c chunks IH]; intros i outputs acc.
  - cbn. by rewrite app_nil_r.
  - cbn [for_enumerate surviving_rows].
    rewrite format_predictions_body_unfold.
    destruct (list_getitem outputs i) as [o|]; cbn; [|done].
    destruct (Qltb _ _); cbn.
    + apply IH.
    + destruct (make_row pdo labels shap_obj i c o) as [r|]; cbn; [|done].
      rewrite IH.
      rewrite (surviving_rows_ext _ _ _ _ outputs (<[i:=r_output r]> outputs))
        by (intros j Hj; apply list_lookup_insert_ne; lia).
      destruct (surviving_rows _ _ _ _ _ _ _) as [rs|]; cbn; [|done].
      by rewrite <- app_assoc.
Qed.

End Loop.

(** ** Assembling the report *)

Lemma foldl_add_column_absorb (ks cols : list string) :
  (forall k, k ∈ ks -> k ∈ cols) -> foldl add_column cols ks = cols.
Proof.
  induction ks as [|k ks IH]; intros H; simpl; [done|].
  unfold add_column at 2. rewrite decide_True by (apply H; left).
  apply IH. intros k' Hk'. apply H. by right.
Qed.

Lemma result_bind_snd {A B C : Type} (m : result (A * B)) (k : B -> result C) :
  (st ← m; k st.2) = (b ← snd <$> m; k b).
Proof. by destruct m. Qed.

Section Report.

Variable shap_Explainer :
  (list string -> list Prediction.t) -> string -> string -> Explanation.
Variable chunk_num_sentences : Z.

Lemma row_dict_keys (r : row_data) :
  (row_dict chunk_num_sentences r).*1
  = ["chunk_#"; "sentences_#"; "threat_intel"; "processed_threat_intel"; "model";
     "iocs"; "output"; "shap_base"; "shap_contribution"].
Proof. reflexivity. Qed.

Lemma DataFrame_of_rows_columns (r : row_data) (rs : list row_data) :
  columns (DataFrame_of_records (row_dict chunk_num_sentences <$> r :: rs))
  = (row_dict chunk_num_sentences r).*1.
Proof.
  unfold DataFrame_of_records. cbn [columns fmap list_fmap mbind list_bind].
  rewrite foldl_app.
  replace (foldl add_column [] (row_dict chunk_num_sentences r).*1)
    with ((row_dict chunk_num_sentences r).*1) by (by vm_compute).
  apply foldl_add_column_absorb. intros k Hk.
  apply list_elem_of_bind in Hk as (d & Hk & Hd).
  apply list_elem_of_fmap in Hd as (r' & -> & _).
  by rewrite row_dict_keys in *.
Qed.

Lemma df_getitem_report_columns (R : list (list cell)) :
  df_getitem
    {| columns := ["chunk_#"; "sentences_#"; "threat_intel"; "processed_threat_intel";
                   "model"; "iocs"; "output"; "shap_base"; "shap_contribution"];
       rows := R |}
    report_columns
  = Ok {| columns := report_columns;
          rows := (fun r => (fun i => default CNaN (r !! i))
                              <$> [0; 1; 2; 3; 6; 4; 5; 7; 8]%nat) <$> R |}.
Proof. by vm_compute. Qed.

(** Selecting [report_columns] from the frame of the row dictionaries puts
    the cells of every row in the order of [row_cells]. *)
Lemma report_of_rows (r : row_data) (rs : list row_data) :
  df_getitem (DataFrame_of_records (row_dict chunk_num_sentences <$> r :: rs))
    report_columns
  = Ok {| columns := report_columns;
          rows := row_cells chunk_num_sentences <$> r :: rs |}.
Proof.
  pose proof (DataFrame_of_rows_columns r rs) as Hc.
  rewrite row_dict_keys in Hc.
  unfold DataFrame_of_records in *. cbn [columns] in Hc. rewrite Hc.
  rewrite df_getitem_report_columns.
  f_equal. f_equal. rewrite <- !list_fmap_compose.
  apply list_fmap_ext. intros _ r' _. reflexivity.
Qed.

(** [format_predictions] is: resolve the threshold, collect the surviving
    rows, build the report and the IOC table. *)
Lemma format_predictions_unfold configs pdo labels model :
  format_predictions shap_Explainer chunk_num_sentences configs pdo labels model =
    let outputs := classifier_max_scores model (processed_data pdo) in
    match py_max (Prediction.score <$> outputs) with
    | Raise e => (Raise e, configs, [])
    | Ok best =>
        let relax := Qltb best (Configs.score configs) in
        let configs' := if relax then Configs.set_score 0 configs else configs in
        (rs ← surviving_rows (Configs.score configs') pdo labels
                (ShapPipeline_init shap_Explainer (classifier_max_scores model))
                outputs 0 (chunked_data pdo);
         Ok (report_of chunk_num_sentences rs,
             transform_list_of_ioc_dicts (iocs pdo)),
         configs',
         if relax then [Print [CStr relax_warning]] else [])
    end.
Proof.
  unfold format_predictions. cbn [InferenceClassificationPipeline_go].
  destruct (py_max _) as [best|e]; [|done]. cbn zeta.
  assert (Hgen : forall c : Configs.t,
    (st ← for_enumerate
            (format_predictions_body chunk_num_sentences c pdo labels
               (ShapPipeline_init shap_Explainer (classifier_max_scores model)))
            0 (chunked_data pdo) (classifier_max_scores model (processed_data pdo), []);
     inference_df ←
       (if (0 <? length st.2)%nat
        then df_getitem (DataFrame_of_records st.2) report_columns
        else Ok DataFrame_empty);
     Ok (inference_df, transform_list_of_ioc_dicts (iocs pdo)))
    = (rs ← surviving_rows (Configs.score c) pdo labels
              (ShapPipeline_init shap_Explainer (classifier_max_scores model))
              (classifier_max_scores model (processed_data pdo)) 0 (chunked_data pdo);
       Ok (report_of chunk_num_sentences rs,
           transform_list_of_ioc_dicts (iocs pdo)))).
  { intros c.
    rewrite (result_bind_snd _ (fun l =>
      inference_df ← (if (0 <? length l)%nat
                      then df_getitem (DataFrame_of_records l) report_columns
                      else Ok DataFrame_empty);
      Ok (inference_df, transform_list_of_ioc_dicts (iocs pdo)))).
    rewrite for_enumerate_rows.
    destruct (surviving_rows _ _ _ _ _ _ _) as [[|r rs]|]; [done| |done].
    cbn [fmap result_fmap mbind result_bind app].
    rewrite report_of_rows. done. }
  destruct (Qltb best (Configs.score configs)); cbn; by rewrite Hgen.
Qed.

End Report.

(** ** The surviving rows *)

Lemma Qltb_Qle_bool (x y : Q) : negb (Qltb x y) = Qle_bool y x.
Proof.
  destruct (Qltb x y) eqn:E; simpl; symmetry.
  - apply not_true_is_false. intros H. apply Qle_bool_iff in H.
    apply Qltb_lt in E. exact (Qlt_not_le _ _ E H).
  - apply Qle_bool_iff. by apply Qltb_ge.
Qed.

Lemma make_row_inv pdo labels shap_obj i chunk o r :
  make_row pdo labels shap_obj i chunk o = Ok r ->
  r_index r = i /\ r_threat_intel r = chunk
  /\ processed_data pdo !! i = Some (r_processed r)
  /\ iocs pdo !! i = Some (r_iocs r)
  /\ enrich labels o = Ok (r_output r)
  /\ ShapPipeline_go shap_obj chunk (r_output r)
     = Ok (r_shap_base r, r_shap_contribution r).
Proof.
  unfold make_row.
  destruct (list_getitem (processed_data pdo) i) as [p|] eqn:Hp; cbn; [|discriminate].
  destruct (list_getitem (iocs pdo) i) as [c|] eqn:Hc; cbn; [|discriminate].
  destruct (enrich labels o) as [o'|] eqn:He; cbn; [|discriminate].
  destruct (ShapPipeline_go shap_obj chunk o') as [[sb sc]|] eqn:Hs; cbn; [|discriminate].
  intros [= <-]. cbn. apply list_getitem_Ok in Hp, Hc. done.
Qed.

(** The surviving rows are those of the retained positions, in chunk order. *)
Lemma surviving_rows_indices threshold pdo labels shap_obj outputs chunks i rs :
  surviving_rows threshold pdo labels shap_obj outputs i chunks = Ok rs ->
  r_index <$> rs = List.filter (retained threshold outputs) (seq i (length chunks)).
Proof.
  revert i rs. induction chunks as [|c chunks IH]; intros i rs; cbn.
  - by intros [= <-].
  - unfold retained at 1, list_getitem at 1.
    destruct (outputs !! i) as [o|]; cbn; [|discriminate].
    rewrite <- Qltb_Qle_bool.
    destruct (Qltb _ _); cbn; [apply IH|].
    destruct (make_row _ _ _ _ _ _) as [r|] eqn:Hr; cbn; [|discriminate].
    destruct (surviving_rows _ _ _ _ _ _ _) as [rs'|] eqn:Hrs; cbn; [|discriminate].
    intros [= <-]. cbn. apply make_row_inv in Hr as [-> _].
    f_equal. by apply IH.
Qed.

(** Every surviving row is the row made for its chunk and its prediction. *)
Lemma surviving_rows_elem threshold pdo labels shap_obj outputs chunks i rs r :
  surviving_rows threshold pdo labels shap_obj outputs i chunks = Ok rs ->
  r ∈ rs ->
  exists chunk o, (i <= r_index r)%nat /\ chunks !! (r_index r - i)%nat = Some chunk
    /\ outputs !! r_index r = Some o
    /\ make_row pdo labels shap_obj (r_index r) chunk o = Ok r.
Proof.
  revert i rs. induction chunks as [|c chunks IH]; intros i rs; cbn.
  - intros [= <-] H. by apply elem_of_nil in H.
  - destruct (list_getitem outputs i) as [o|] eqn:Ho; cbn; [|discriminate].
    assert (Hnext : forall rs', 
      surviving_rows threshold pdo labels shap_obj outputs (S i) chunks = Ok rs' ->
      r ∈ rs' ->
      exists chunk o, (i <= r_index r)%nat
        /\ (c :: chunks) !! (r_index r - i)%nat = Some chunk
        /\ outputs !! r_index r = Some o
        /\ make_row pdo labels shap_obj (r_index r) chunk o = Ok r).
    { intros rs' Hrs' Hin.
      destruct (IH _ _ Hrs' Hin) as (chunk & o' & Hle & Hch & Ho' & Hmk).
      exists chunk, o'. split; [lia|]. split; [|done].
      replace (r_index r - i)%nat with (S (r_index r - S i)) by lia. done. }
    destruct (Qltb _ _); cbn; [apply Hnext|].
    destruct (make_row _ _ _ _ _ _) as [r0|] eqn:Hr; cbn; [|discriminate].
    destruct (surviving_rows _ _ _ _ _ _ _) as [rs'|] eqn:Hrs; cbn; [|discriminate].
    intros [= <-] [-> | Hin]%elem_of_cons; [|by eapply Hnext].
    pose proof (make_row_inv _ _ _ _ _ _ _ Hr) as [Hi _].
    exists c, o. rewrite Hi, Nat.sub_diag. apply list_getitem_Ok in Ho. done.
Qed.

(** The loop raises nothing when every chunk has a prediction and the row of
    every chunk that passes the filter can be made. *)
Lemma surviving_rows_total threshold pdo labels shap_obj outputs chunks i :
  (forall j chunk, chunks !! j = Some chunk ->
     exists o, outputs !! (i + j)%nat = Some o
       /\ (Qltb (Prediction.score o) threshold = false ->
           is_ok (make_row pdo labels shap_obj (i + j) chunk o) = true)) ->
  exists rs, surviving_rows threshold pdo labels shap_obj outputs i chunks = Ok rs.
Proof.
  revert i. induction chunks as [|c chunks IH]; intros i H; cbn; [by eexists|].
  destruct (H 0%nat c eq_refl) as (o & Ho & Hmk). rewrite Nat.add_0_r in Ho, Hmk.
  rewrite (proj2 (list_getitem_Ok _ _ _) Ho). cbn.
  destruct (IH (S i)) as [rs Hrs].
  { intros j chunk Hj. replace (S i + j)%nat with (i + S j)%nat by lia. by apply H. }
  rewrite Hrs. destruct (Qltb _ _); cbn; [by eexists|].
  specialize (Hmk eq_refl). destruct (make_row _ _ _ _ _ _); [|done].
  cbn. by eexists.
Qed.

(** ** Labels of the form LABEL_<int> *)

Lemma string_of_uint_digits (d : Decimal.uint) :
  PyStr.all_digits (NilEmpty.string_of_uint d) = true.
Proof. induction d; simpl; auto. Qed.

Lemma is_digit_not_space (a : ascii) :
  PyStr.is_digit a = true -> PyStr.is_space a = false.
Proof.
  unfold PyStr.is_digit, PyStr.is_space. cbv zeta.
  intros [H1 H2]%andb_true_iff. apply Nat.leb_le in H1, H2.
  apply orb_false_iff; split; apply andb_false_iff.
  - right. apply Nat.leb_gt. lia.
  - right. apply Nat.leb_gt. lia.
Qed.

Lemma rstrip_digits (s : string) :
  PyStr.all_digits s = true -> PyStr.rstrip s = s.
Proof.
  induction s as [|a r IH]; [done|]. cbn [PyStr.all_digits PyStr.rstrip].
  intros [Ha Hr]%andb_true_iff. rewrite (IH Hr), (is_digit_not_space _ Ha).
  by destruct r.
Qed.

Lemma strip_digits (s : string) :
  PyStr.all_digits s = true -> PyStr.strip s = s.
Proof.
  intros H. unfold PyStr.strip.
  assert (PyStr.lstrip s = s) as ->; [|by apply rstrip_digits].
  destruct s as [|a r]; [done|]. cbn in *.
  apply andb_true_iff in H as [Ha _]. by rewrite (is_digit_not_space _ Ha).
Qed.

Lemma split_digits (s : string) :
  PyStr.all_digits s = true -> PyStr.split "_" s = [s].
Proof.
  induction s as [|a r IH]; [done|]. cbn [PyStr.all_digits PyStr.split].
  intros [Ha Hr]%andb_true_iff. rewrite (IH Hr).
  destruct (Ascii.eqb_spec a "_") as [->|]; [discriminate Ha | done].
Qed.

Lemma to_int_digits (s : string) :
  PyStr.all_digits s = true -> PyStr.to_int s = PyStr.digits s.
Proof.
  intros H. unfold PyStr.to_int. rewrite (strip_digits _ H).
  destruct s as [|a r]; [done|].
  apply andb_true_iff in H as [Ha _].
  destruct a as [[] [] [] [] [] [] [] []]; try discriminate Ha; reflexivity.
Qed.

(** [str] of a natural number. *)
Lemma of_int_N (n : N) :
  PyStr.of_int (Z.of_N n) = NilZero.string_of_uint (N.to_uint n).
Proof. by destruct n. Qed.

Lemma of_int_N_digits (n : N) : PyStr.all_digits (PyStr.of_int (Z.of_N n)) = true.
Proof.
  rewrite of_int_N. unfold NilZero.string_of_uint.
  destruct (N.to_uint n); try done; apply string_of_uint_digits.
Qed.

(** [int(str(n)) == n] *)
Lemma to_int_of_int_N (n : N) : PyStr.to_int (PyStr.of_int (Z.of_N n)) = Ok (Z.of_N n).
Proof.
  rewrite (to_int_digits _ (of_int_N_digits n)), of_int_N.
  unfold PyStr.digits. rewrite NilZero.usu.
  - by rewrite DecimalN.Unsigned.of_to.
  - destruct n as [|p]; [done|]. cbn. intros H.
    pose proof (DecimalPos.Unsigned.of_to p) as Hp. rewrite H in Hp. done.
Qed.

Lemma split_label_prefix (s : string) :
  PyStr.split "_" ("LABEL_" ++ s) = "LABEL" :: PyStr.split "_" s.
Proof. reflexivity. Qed.

Lemma split_label_N (n : N) :
  PyStr.split "_" ("LABEL_" ++ PyStr.of_int (Z.of_N n))
  = ["LABEL"; PyStr.of_int (Z.of_N n)].
Proof.
  by rewrite split_label_prefix, (split_digits _ (of_int_N_digits n)).
Qed.

(** Enriching a prediction whose label is LABEL_<n>. *)
Lemma enrich_label_N (labels : Labels) (n : N) (o : Prediction.t)
    (technique name : string) :
  Prediction.label o = "LABEL_" ++ PyStr.of_int (Z.of_N n) ->
  label_to_technique labels !! Z.of_N n = Some technique ->
  technique_to_name labels !! technique = Some name ->
  enrich labels o
  = Ok (Prediction.mk (Prediction.label o) (Prediction.score o) (Some technique)
          (Some name) (Some (webpage technique))).
Proof.
  intros Hl Ht Hn. unfold enrich. rewrite Hl, split_label_N. cbn.
  rewrite to_int_of_int_N. cbn. unfold getitem. rewrite Ht. cbn. rewrite Hn. cbn.
  by rewrite <- Hl.
Qed.

(** ** SHAP buckets *)

Lemma np_mask_Ok {A : Type} (arr : list A) (mask : list bool) (l : list A) :
  np_mask arr mask = Ok l <-> length arr = length mask /\ l = select arr mask.
Proof.
  unfold np_mask. destruct (Nat.eqb_spec (length arr) (length mask)); split.
  - by intros [= <-].
  - by intros [_ ->].
  - discriminate.
  - by intros [? _].
Qed.

Lemma select_zip {A B : Type} (a : list A) (b : list B) (mask : list bool) :
  zip (select a mask) (select b mask) = select (zip a b) mask.
Proof.
  revert b mask. induction a as [|x a IH]; intros [|y b] [|[] mask]; cbn;
    try done; try (by destruct (select _ _)); try (by f_equal); auto.
Qed.

Lemma select_fmap {A : Type} (f : A -> bool) (l : list A) :
  select l (f <$> l) = List.filter f l.
Proof.
  induction l as [|x l IH]; cbn; [done|]. rewrite IH. by destruct (f x).
Qed.

Lemma snd_zip_fmap {A B C : Type} (f : B -> C) (a : list A) (b : list B) :
  length a = length b -> f <$> b = (fun p => f p.2) <$> zip a b.
Proof.
  revert b. induction a as [|x a IH]; intros [|y b] H; cbn in *; try done.
  f_equal. apply IH. lia.
Qed.

(** A bucket is the dictionary of the (token, value) pairs its mask keeps. *)
Lemma bucket_filter (f : Q -> bool) (tokens : list string) (vals : list Q) :
  length tokens = length vals ->
  zip (select tokens (f <$> vals)) (select vals (f <$> vals))
  = List.filter (fun p => f p.2) (zip tokens vals).
Proof.
  intros H. rewrite select_zip, (snd_zip_fmap f tokens vals H). apply select_fmap.
Qed.

Section DictOfPairs.

Context `{Countable K} {V : Type}.
Implicit Types (l : list (K * V)) (m : gmap K V).

Lemma foldl_insert_lookup l m k v :
  foldl (fun m p => <[p.1 := p.2]> m) m l !! k = Some v ->
  (k, v) ∈ l \/ m !! k = Some v.
Proof.
  revert m. induction l as [|[k' v'] l IH]; intros m; cbn; [auto|].
  intros [Hin | Hm]%IH.
  - left. by right.
  - destruct (decide (k' = k)) as [->|Hne].
    + rewrite lookup_insert_eq in Hm. injection Hm as ->. left. by left.
    + rewrite lookup_insert_ne in Hm by done. by right.
Qed.

Lemma dict_of_pairs_lookup l k v : dict_of_pairs l !! k = Some v -> (k, v) ∈ l.
Proof.
  intros [?|Hm]%foldl_insert_lookup; [done|]. by rewrite lookup_empty in Hm.
Qed.

Lemma foldl_insert_dom l m :
  dom (foldl (fun m p => <[p.1 := p.2]> m) m l) = dom m ∪ list_to_set l.*1.
Proof.
  revert m. induction l as [|[k v] l IH]; intros m; cbn.
  - by rewrite union_empty_r_L.
  - by rewrite IH, dom_insert_L, (union_comm_L {[k]}), <- union_assoc_L.
Qed.

Lemma dict_of_pairs_dom l : dom (dict_of_pairs l) = list_to_set l.*1.
Proof.
  unfold dict_of_pairs. by rewrite foldl_insert_dom, dom_empty_L, union_empty_l_L.
Qed.

(** A later pair replaces an earlier one. *)
Lemma dict_of_pairs_last l k v : dict_of_pairs (l ++ [(k, v)]) !! k = Some v.
Proof. unfold dict_of_pairs. rewrite foldl_snoc. apply lookup_insert_eq. Qed.

End DictOfPairs.

Lemma np_mask_fmap {A : Type} (f : A -> bool) (arr : list A) :
  np_mask arr (f <$> arr) = Ok (select arr (f <$> arr)).
Proof. apply np_mask_Ok. by rewrite length_fmap. Qed.

(** What [ShapPipeline.go] returns, when it returns. *)
Lemma ShapPipeline_go_inv self text o sb sc :
  ShapPipeline_go self text o = Ok (sb, sc) ->
  length (token_processed sb) = length (values sb)
  /\ positive sc = positive_of (token_processed sb) (values sb)
  /\ neutral sc = neutral_of (token_processed sb) (values sb)
  /\ negative sc = negative_of (token_processed sb) (values sb).
Proof.
  unfold ShapPipeline_go. cbv zeta. cbn [values token_processed].
  rewrite !np_mask_fmap. cbn [mbind result_bind].
  set (vals := np_round5 <$> e_values _).
  set (tokens := (fun el => PyStr.remove_marker (PyStr.strip el)) <$> e_data _).
  destruct (np_mask tokens ((fun v => Qltb 0 v) <$> vals)) as [pd|] eqn:Hp;
    cbn [mbind result_bind]; [|discriminate].
  apply np_mask_Ok in Hp as [Hlen ->]. rewrite length_fmap in Hlen.
  assert (Hm : forall f : Q -> bool,
             np_mask tokens (f <$> vals) = Ok (select tokens (f <$> vals))).
  { intros f. apply np_mask_Ok. by rewrite length_fmap. }
  rewrite !Hm. cbn [mbind result_bind]. intros [= <- <-]. cbn.
  by rewrite !bucket_filter.
Qed.

(** [ShapPipeline.go] returns when the explainer yields one value per token. *)
Lemma ShapPipeline_go_total self text o :
  length (e_values (explainer self text (Prediction.label o)))
  = length (e_data (explainer self text (Prediction.label o))) ->
  is_ok (ShapPipeline_go self text o) = true.
Proof.
  intros Hlen. unfold ShapPipeline_go. cbv zeta. cbn [values token_processed].
  rewrite !np_mask_fmap. cbn [mbind result_bind].
  set (vals := np_round5 <$> e_values _).
  set (tokens := (fun el => PyStr.remove_marker (PyStr.strip el)) <$> e_data _).
  assert (Hm : forall f : Q -> bool,
             np_mask tokens (f <$> vals) = Ok (select tokens (f <$> vals))).
  { intros f. apply np_mask_Ok. unfold tokens, vals. by rewrite !length_fmap. }
  by rewrite !Hm.
Qed.

Lemma Qsign_cases (v : Q) :
  (Qltb 0 v = true /\ Qeqb v 0 = false /\ Qltb v 0 = false /\ (v ?= 0)%Q = Gt)
  \/ (Qltb 0 v = false /\ Qeqb v 0 = true /\ Qltb v 0 = false /\ (v ?= 0)%Q = Eq)
  \/ (Qltb 0 v = false /\ Qeqb v 0 = false /\ Qltb v 0 = true /\ (v ?= 0)%Q = Lt).
Proof.
  unfold Qltb, Qeqb. rewrite <- (Qcompare_antisym v 0).
  destruct (v ?= 0)%Q; cbn; auto 10.
Qed.

Lemma elem_of_filter_bucket (f : string * Q -> bool) (l : list (string * Q)) t :
  t ∈ (list_to_set (List.filter f l).*1 : gset string)
  <-> exists v, (t, v) ∈ l /\ f (t, v) = true.
Proof.
  rewrite elem_of_list_to_set, list_elem_of_fmap. split.
  - intros ([t' v] & -> & Hin). apply list_elem_of_In, filter_In in Hin as [Hin Hf].
    exists v. split; [by apply list_elem_of_In | done].
  - intros (v & Hin & Hf). exists (t, v). split; [done|].
    apply list_elem_of_In, filter_In. split; [by apply list_elem_of_In | done].
Qed.

Lemma elem_of_zip_fst {A B : Type} (a : list A) (b : list B) (x : A) :
  length a = length b -> x ∈ a -> exists y, (x, y) ∈ zip a b.
Proof.
  revert b. induction a as [|x' a IH]; intros [|y b] Hlen Hin; cbn in *; try done.
  - by apply elem_of_nil in Hin.
  - apply elem_of_cons in Hin as [->|Hin].
    + exists y. by left.
    + destruct (IH b ltac:(lia) Hin) as [y' Hy']. exists y'. by right.
Qed.

Section Buckets.

Variables (tokens : list string) (vals : list Q).
Hypothesis Hlen : length tokens = length vals.

Lemma bucket_lookup (f : string * Q -> bool) t v :
dict_of_pairs (List.filter f (zip tokens vals)) !! t = Some v ->
(t, v) ∈ zip tokens vals /\ f (t, v) = true.
Proof.
intros Hin%dict_of_pairs_lookup%list_elem_of_In%filter_In.
destruct Hin as [Hin Hf]. by apply list_elem_of_In in Hin.
Qed.

Lemma bucket_is_Some (f : string * Q -> bool) t :
is_Some (dict_of_pairs (List.filter f (zip tokens vals)) !! t)
<-> exists v, (t, v) ∈ zip tokens vals /\ f (t, v) = true.
Proof.
rewrite <- elem_of_dom, dict_of_pairs_dom. apply elem_of_filter_bucket.
Qed.

Lemma buckets_cover t :
t ∈ tokens ->
is_Some (positive_of tokens vals !! t)
\/ is_Some (neutral_of tokens vals !! t)
\/ is_Some (negative_of tokens vals !! t).
Proof.
intros Hin. destruct (elem_of_zip_fst _ _ _ Hlen Hin) as [v Hv].
unfold positive_of, neutral_of, negative_of. rewrite !bucket_is_Some.
destruct (Qsign_cases v) as [(?&?&?&?) | [(?&?&?&?) | (?&?&?&?)]]; eauto 6.
Qed.

Lemma buckets_dom_union :
dom (positive_of tokens vals) ∪ dom (neutral_of tokens vals)
  ∪ dom (negative_of tokens vals)
= (list_to_set tokens : gset string).
Proof.
apply set_eq. intros t.
rewrite !elem_of_union, !elem_of_dom, elem_of_list_to_set. split.
- unfold positive_of, neutral_of, negative_of. rewrite !bucket_is_Some.
  intros [[(v & Hv & _) | (v & Hv & _)] | (v & Hv & _)];
    by apply elem_of_zip_l in Hv.
- intros Hin. destruct (buckets_cover t Hin) as [?|[?|?]]; auto.
Qed.

Lemma size_union_le (X Y : gset string) : (size (X ∪ Y) <= size X + size Y)%nat.
Proof.
rewrite size_union_alt.
assert (size (Y ∖ X) <= size Y)%nat; [|lia].
apply subseteq_size. intros x Hx. by apply elem_of_difference in Hx as [? _].
Qed.

Lemma buckets_size_ge :
(distinct_tokens tokens
 <= size (positive_of tokens vals) + size (neutral_of tokens vals)
    + size (negative_of tokens vals))%nat.
Proof.
unfold distinct_tokens. rewrite <- buckets_dom_union, <- !size_dom.
pose proof (size_union_le
              (dom (positive_of tokens vals) ∪ dom (neutral_of tokens vals))
              (dom (negative_of tokens vals))).
pose proof (size_union_le (dom (positive_of tokens vals))
              (dom (neutral_of tokens vals))).
lia.
Qed.

Hypothesis Hsign : same_sign_per_token tokens vals.

Lemma buckets_exclusive (f g : string * Q -> bool) (cf cg : comparison) t :
(forall t v, f (t, v) = true -> (v ?= 0)%Q = cf) ->
(forall t v, g (t, v) = true -> (v ?= 0)%Q = cg) ->
cf <> cg ->
is_Some (dict_of_pairs (List.filter f (zip tokens vals)) !! t) ->
is_Some (dict_of_pairs (List.filter g (zip tokens vals)) !! t) -> False.
Proof.
intros Hf Hg Hne (v1 & Hv1 & Hf1)%bucket_is_Some (v2 & Hv2 & Hg2)%bucket_is_Some.
apply Hne. rewrite <- (Hf _ _ Hf1), <- (Hg _ _ Hg2). by apply (Hsign t).
Qed.

Lemma pos_sign (t : string) v : Qltb 0 (t, v).2 = true -> (v ?= 0)%Q = Gt.
Proof.
cbn. destruct (Qsign_cases v) as [(?&?&?&?) | [(?&?&?&?) | (?&?&?&?)]]; congruence.
Qed.

Lemma neu_sign (t : string) v : Qeqb (t, v).2 0 = true -> (v ?= 0)%Q = Eq.
Proof.
cbn. destruct (Qsign_cases v) as [(?&?&?&?) | [(?&?&?&?) | (?&?&?&?)]]; congruence.
Qed.

Lemma neg_sign (t : string) v : Qltb (t, v).2 0 = true -> (v ?= 0)%Q = Lt.
Proof.
cbn. destruct (Qsign_cases v) as [(?&?&?&?) | [(?&?&?&?) | (?&?&?&?)]]; congruence.
Qed.

Lemma pos_neu_exclusive t :
is_Some (positive_of tokens vals !! t) -> is_Some (neutral_of tokens vals !! t) ->
False.
Proof. by apply (buckets_exclusive _ _ Gt Eq t pos_sign neu_sign). Qed.

Lemma pos_neg_exclusive t :
is_Some (positive_of tokens vals !! t) -> is_Some (negative_of tokens vals !! t) ->
False.
Proof. by apply (buckets_exclusive _ _ Gt Lt t pos_sign neg_sign). Qed.

Lemma neu_neg_exclusive t :
is_Some (neutral_of tokens vals !! t) -> is_Some (negative_of tokens vals !! t) ->
False.
Proof. by apply (buckets_exclusive _ _ Eq Lt t neu_sign neg_sign). Qed.

Lemma buckets_one t :
t ∈ tokens ->
exactly_one (is_Some (positive_of tokens vals !! t))
  (is_Some (neutral_of tokens vals !! t))
  (is_Some (negative_of tokens vals !! t)).
Proof.
intros Hin. pose proof (pos_neu_exclusive t). pose proof (pos_neg_exclusive t).
pose proof (neu_neg_exclusive t). unfold exactly_one.
destruct (buckets_cover t Hin) as [?|[?|?]]; tauto.
Qed.

Lemma buckets_size_eq :
(size (positive_of tokens vals) + size (neutral_of tokens vals)
 + size (negative_of tokens vals))%nat
= distinct_tokens tokens.
Proof.
unfold distinct_tokens. rewrite <- buckets_dom_union, <- !size_dom.
rewrite !size_union; [done| |].
- intros t Ht1%elem_of_dom Ht2%elem_of_dom. by eapply pos_neu_exclusive.
- intros t [Ht1%elem_of_dom | Ht1%elem_of_dom]%elem_of_union Ht2%elem_of_dom.
  + by eapply pos_neg_exclusive.
  + by eapply neu_neg_exclusive.
Qed.

End Buckets.

(** ** The attribution buckets (claim C3) *)

(** C3, as amended.  For every attribution result: every value in [positive]
    is > 0, every value in [negative] is < 0, every value in [neutral] is
    == 0; every token appears in at least one of the three mappings, and the
    three sizes add up to at least the number of distinct token strings.
    When no token string occurs with contributions of different sign, every
    token appears in exactly one mapping and
    |positive| + |neutral| + |negative| is the number of distinct token
    strings. *)
Theorem shap_contribution_partition self text o sb sc :
  ShapPipeline_go self text o = Ok (sb, sc) ->
  bucket_signs sc
  /\ (forall t, t ∈ token_processed sb -> in_some_bucket sc t)
  /\ (distinct_tokens (token_processed sb) <= bucket_sizes sc)%nat
  /\ (same_sign_per_token (token_processed sb) (values sb) ->
      exact_partition (token_processed sb) sc).
Proof.
  intros (Hlen & Hpos & Hneu & Hneg)%ShapPipeline_go_inv.
  assert (Hsigns : bucket_signs sc).
  { unfold bucket_signs. rewrite Hpos, Hneu, Hneg. repeat split; intros t v Hv.
    - apply bucket_lookup in Hv as [_ Hv]. by apply Qltb_lt.
    - apply bucket_lookup in Hv as [_ Hv]. by apply Qltb_lt.
    - apply bucket_lookup in Hv as [_ Hv]. by apply Qeqb_eq. }
  split; [done|]. split; [|split].
  - intros t Ht. unfold in_some_bucket. rewrite Hpos, Hneu, Hneg.
    by apply buckets_cover.
  - unfold bucket_sizes. rewrite Hpos, Hneu, Hneg. by apply buckets_size_ge.
  - intros Hsign. split; [done|]. split.
    + intros t Ht. unfold in_one_bucket. rewrite Hpos, Hneu, Hneg.
      by apply buckets_one.
    + unfold bucket_sizes. rewrite Hpos, Hneu, Hneg. by apply buckets_size_eq.
Qed.

Lemma shap_contribution_partition_witness :
  bucket_signs Inputs.shap_contribution3
  /\ (forall t, t ∈ ["a"; "b"; "c"] -> in_some_bucket Inputs.shap_contribution3 t)
  /\ (distinct_tokens ["a"; "b"; "c"] <= bucket_sizes Inputs.shap_contribution3)%nat
  /\ (same_sign_per_token ["a"; "b"; "c"] (values Inputs.shap_base3) ->
      exact_partition ["a"; "b"; "c"] Inputs.shap_contribution3).
Proof.
  apply (shap_contribution_partition Inputs.shap3 "a b c"
           (Prediction.raw "LABEL_3" 1) Inputs.shap_base3 Inputs.shap_contribution3).
  vm_compute. reflexivity.
Defined.

(** The token "a" with the contributions 1 and -1 lands in both [positive]
    and [negative]: two entries for one distinct token string. *)
Lemma shap_contribution_partition_fails :
  exists sb sc,
    ShapPipeline_go Inputs.shap_aa "a a" (Prediction.raw "LABEL_0" 1) = Ok (sb, sc)
    /\ token_processed sb = ["a"; "a"]
    /\ is_Some (positive sc !! "a") /\ is_Some (negative sc !! "a")
    /\ bucket_sizes sc = 2%nat /\ distinct_tokens (token_processed sb) = 1%nat
    /\ ~ exact_partition (token_processed sb) sc.
Proof.
  eexists _, _. split; [by vm_compute|]. cbn [token_processed positive negative].
  split; [by vm_compute|].
  split; [by eexists; vm_compute|]. split; [by eexists; vm_compute|].
  split; [by vm_compute|]. split; [by vm_compute|].
  intros (_ & _ & Hsize). vm_compute in Hsize. discriminate.
Qed.

(** ** The formatting pipeline (claims C1, C2, C4, C5, C7, C10) *)

Lemma make_row_total pdo labels shap_obj i chunk o :
  (i < length (processed_data pdo))%nat ->
  (i < length (iocs pdo))%nat ->
  is_ok (enrich labels o) = true ->
  (forall text label,
     length (e_values (explainer shap_obj text label))
     = length (e_data (explainer shap_obj text label))) ->
  is_ok (make_row pdo labels shap_obj i chunk o) = true.
Proof.
  intros [p Hp]%lookup_lt_is_Some_2 [c Hc]%lookup_lt_is_Some_2 He Hs. unfold make_row.
  rewrite (proj2 (list_getitem_Ok _ _ _) Hp), (proj2 (list_getitem_Ok _ _ _) Hc).
  cbn. destruct (enrich labels o) as [o'|]; [|done]. cbn.
  pose proof (ShapPipeline_go_total shap_obj chunk o' (Hs _ _)) as Hgo.
  by destruct (ShapPipeline_go shap_obj chunk o').
Qed.

Lemma elem_of_filter_retained threshold outputs n i :
  i ∈ List.filter (retained threshold outputs) (seq 0 n)
  <-> (i < n)%nat
      /\ exists o, outputs !! i = Some o /\ (threshold <= Prediction.score o)%Q.
Proof.
  rewrite list_elem_of_In, filter_In, in_seq. unfold retained.
  destruct (outputs !! i) as [o|]; split.
  - intros [Hi Hle%Qle_bool_iff]. split; [lia|]. eauto.
  - intros [Hi (o' & [= <-] & Hle)]. split; [lia|]. by apply Qle_bool_iff.
  - intros [_ ?]. done.
  - intros [_ (o' & ? & _)]. done.
Qed.

Lemma rows_report_of S rs : rows (report_of S rs) = row_cells S <$> rs.
Proof. by destruct rs. Qed.

(** A loop that returns has found a prediction for every chunk. *)
Lemma surviving_rows_outputs threshold pdo labels shap_obj outputs chunks i rs :
  surviving_rows threshold pdo labels shap_obj outputs i chunks = Ok rs ->
  forall j, (j < length chunks)%nat -> is_Some (outputs !! (i + j)%nat).
Proof.
  revert i rs. induction chunks as [|c chunks IH]; intros i rs; cbn; [lia|].
  destruct (list_getitem outputs i) as [o|] eqn:Ho; cbn; [|discriminate].
  apply list_getitem_Ok in Ho. intros Hrs.
  assert (Hnext : exists rs', surviving_rows threshold pdo labels shap_obj outputs
                                (S i) chunks = Ok rs').
  { destruct (Qltb _ _); [by eexists|].
    destruct (make_row _ _ _ _ _ _); cbn in Hrs; [|discriminate].
    destruct (surviving_rows _ _ _ _ _ _ _); [by eexists | discriminate]. }
  destruct Hnext as [rs' Hrs']. intros [|j] Hj.
  - rewrite Nat.add_0_r. by eexists.
  - replace (i + S j)%nat with (S i + j)%nat by lia. eapply IH; [done | lia].
Qed.

Section FormatPredictions.

Variable shap_Explainer :
  (list string -> list Prediction.t) -> string -> string -> Explanation.
Variable chunk_num_sentences : Z.

Lemma format_predictions_Ok configs pdo labels model df iocs_df configs' out :
  format_predictions shap_Explainer chunk_num_sentences configs pdo labels model
  = (Ok (df, iocs_df), configs', out) ->
  exists rs,
    effective_threshold configs
      (Prediction.score <$> classifier_max_scores model (processed_data pdo))
    = Ok (Configs.score configs')
    /\ surviving_rows (Configs.score configs') pdo labels
         (ShapPipeline_init shap_Explainer (classifier_max_scores model))
         (classifier_max_scores model (processed_data pdo)) 0 (chunked_data pdo)
       = Ok rs
    /\ df = report_of chunk_num_sentences rs
    /\ iocs_df = transform_list_of_ioc_dicts (iocs pdo).
Proof.
  rewrite format_predictions_unfold. cbv zeta. unfold effective_threshold.
  destruct (py_max _) as [best|]; [|discriminate]. cbn [mbind result_bind].
  destruct (Qltb best (Configs.score configs)).
  - destruct (surviving_rows _ _ _ _ _ _ _) as [rs|] eqn:Hrs; [|discriminate].
    cbn. intros [= <- <- <- <-]. by exists rs.
  - destruct (surviving_rows _ _ _ _ _ _ _) as [rs|] eqn:Hrs; [|discriminate].
    cbn. intros [= <- <- <- <-]. by exists rs.
Qed.

(** [format_predictions] returns when there is at least one prediction, the
    inputs are aligned, every label resolves and the explainer yields one
    value per token. *)
Lemma format_predictions_returns configs pdo labels model :
  classifier_max_scores model (processed_data pdo) <> [] ->
  length (classifier_max_scores model (processed_data pdo))
  = length (chunked_data pdo) ->
  length (processed_data pdo) = length (chunked_data pdo) ->
  length (iocs pdo) = length (chunked_data pdo) ->
  Forall (fun o => is_ok (enrich labels o) = true)
    (classifier_max_scores model (processed_data pdo)) ->
  (forall text label,
     length (e_values (shap_Explainer (classifier_max_scores model) text label))
     = length (e_data (shap_Explainer (classifier_max_scores model) text label))) ->
  is_ok (format_predictions shap_Explainer chunk_num_sentences configs pdo labels
           model).1.1 = true.
Proof.
  intros Hne Hlo Hlp Hli Hlab Hshap.
  rewrite format_predictions_unfold. cbv zeta.
  destruct (py_max_nonempty
              (Prediction.score <$> classifier_max_scores model (processed_data pdo)))
    as [best ->].
  { intros Hnil%fmap_nil_inv. done. }
  assert (Htotal : forall threshold, exists rs,
    surviving_rows threshold pdo labels
      (ShapPipeline_init shap_Explainer (classifier_max_scores model))
      (classifier_max_scores model (processed_data pdo)) 0 (chunked_data pdo)
    = Ok rs).
  { intros threshold. apply surviving_rows_total.
    intros j chunk Hj. apply lookup_lt_Some in Hj.
    destruct (lookup_lt_is_Some_2
                (classifier_max_scores model (processed_data pdo)) j ltac:(lia))
      as [o Ho].
    exists o. split; [done|]. intros _. apply make_row_total.
    - cbn. lia.
    - cbn. lia.
    - rewrite Forall_forall in Hlab. apply Hlab.
      by eapply list_elem_of_lookup_2.
    - intros text label. apply Hshap. }
  cbn [fst snd].
  destruct (Htotal (Configs.score
                      (if Qltb best (Configs.score configs)
                       then Configs.set_score 0 configs else configs)))
    as [rs ->].
  done.
Qed.

(** C10.  When the best confidence is below the configured threshold the
    call leaves the caller's [configs] with ['score'] set to 0.0, whether it
    returns or raises; otherwise it leaves [configs] as it was. *)
Theorem format_predictions_configs configs pdo labels model :
  let scores :=
    Prediction.score <$> classifier_max_scores model (processed_data pdo) in
  let configs' :=
    (format_predictions shap_Explainer chunk_num_sentences configs pdo labels
       model).1.2 in
  ((exists best, py_max scores = Ok best /\ (best < Configs.score configs)%Q) ->
     configs' = Configs.set_score 0 configs /\ Configs.score configs' = 0%Q)
  /\ (~ (exists best, py_max scores = Ok best /\ (best < Configs.score configs)%Q) ->
       configs' = configs).
Proof.
  cbv zeta. rewrite format_predictions_unfold. cbv zeta.
  destruct (py_max _) as [best|e]; cbn.
  - destruct (Qltb best (Configs.score configs)) eqn:E; cbn; split; try done.
    + intros H. exfalso. apply H. exists best. split; [done|]. by apply Qltb_lt.
    + intros (b & [= <-] & Hlt%Qltb_lt). congruence.
  - split; [|done]. by intros (b & ? & _).
Qed.

(** C5: the code fails the claim.  With no chunk the classifier returns no
    prediction, [max] raises ValueError at line 104, and [format_predictions]
    returns neither an empty report nor an empty IOC table; [configs] is
    untouched and nothing is printed. *)
Theorem format_predictions_no_chunks configs pdo labels model :
  classifier_max_scores model (processed_data pdo) = [] ->
  format_predictions shap_Explainer chunk_num_sentences configs pdo labels model
  = (Raise (ValueError "max() arg is an empty sequence"), configs, []).
Proof.
  intros Hnone. rewrite format_predictions_unfold. cbv zeta.
  by rewrite Hnone.
Qed.

(** C1.  For a non-empty sequence of predictions whose best confidence is
    below the configured threshold, every confidence being >= 0: the call
    leaves the effective threshold at 0.0 and prints exactly one warning;
    when it returns, the report has one row per chunk, in chunk order; and it
    does return when the inputs are aligned, every label resolves and the
    explainer yields one value per token. *)
Theorem threshold_relaxation configs pdo labels model best :
  py_max (Prediction.score <$> classifier_max_scores model (processed_data pdo))
  = Ok best ->
  (best < Configs.score configs)%Q ->
  Forall (fun o => (0 <= Prediction.score o)%Q)
    (classifier_max_scores model (processed_data pdo)) ->
  let r :=
    format_predictions shap_Explainer chunk_num_sentences configs pdo labels model in
  effective_threshold configs
    (Prediction.score <$> classifier_max_scores model (processed_data pdo))
  = Ok 0%Q
  /\ r.1.2 = Configs.set_score 0 configs
  /\ r.2 = [Print [CStr relax_warning]]
  /\ (forall df iocs_df, r.1.1 = Ok (df, iocs_df) ->
        exists rs, rows df = row_cells chunk_num_sentences <$> rs
          /\ r_index <$> rs = seq 0 (length (chunked_data pdo)))
  /\ (length (classifier_max_scores model (processed_data pdo))
        = length (chunked_data pdo) ->
      length (processed_data pdo) = length (chunked_data pdo) ->
      length (iocs pdo) = length (chunked_data pdo) ->
      Forall (fun o => is_ok (enrich labels o) = true)
        (classifier_max_scores model (processed_data pdo)) ->
      (forall text label,
         length (e_values (shap_Explainer (classifier_max_scores model) text label))
         = length (e_data (shap_Explainer (classifier_max_scores model) text label))) ->
      is_ok r.1.1 = true).
Proof.
  intros Hmax Hlt Hpos. cbv zeta.
  rewrite format_predictions_unfold. cbv zeta. unfold effective_threshold.
  rewrite Hmax. cbn [mbind result_bind].
  rewrite (proj2 (Qltb_lt _ _) Hlt). cbn [Configs.score Configs.set_score fst snd].
  split; [done|]. split; [done|]. split; [done|]. split.
  - intros df iocs_df Hret.
    destruct (surviving_rows _ _ _ _ _ _ _) as [rs|] eqn:Hrs; [|discriminate].
    cbn in Hret. injection Hret as <- _.
    pose proof (surviving_rows_outputs _ _ _ _ _ _ _ _ Hrs) as Hout.
    exists rs. split; [apply rows_report_of|].
    rewrite (surviving_rows_indices _ _ _ _ _ _ _ _ Hrs).
    assert (Hall : forall n, (n <= length (chunked_data pdo))%nat ->
              List.filter
                (retained 0 (classifier_max_scores model (processed_data pdo)))
                (seq 0 n) = seq 0 n).
    { induction n as [|n IH]; intros Hn; [done|].
      rewrite seq_S, List.filter_app, IH by lia. f_equal. cbn.
      destruct (Hout n ltac:(lia)) as [o Ho]. cbn in Ho.
      unfold retained. rewrite Ho.
      rewrite Forall_forall in Hpos.
      by rewrite (proj2 (Qle_bool_iff _ _)
                    (Hpos o (list_elem_of_lookup_2 _ _ _ Ho))). }
    by apply Hall.
  - intros Hlo Hlp Hli Hlab Hshap.
    pose proof (format_predictions_returns configs pdo labels model) as Hret.
    rewrite format_predictions_unfold in Hret. cbv zeta in Hret.
    rewrite Hmax, (proj2 (Qltb_lt _ _) Hlt) in Hret. apply Hret; try done.
    intros Hnil. by rewrite Hnil in Hmax.
Qed.

(** C2.  When [format_predictions] returns, the rows of the report are the
    rows of the chunks whose confidence is greater than or equal to the
    effective threshold, one row each and in chunk order; a chunk whose
    confidence is strictly below the effective threshold has no row. *)
Theorem report_rows_filter configs pdo labels model df iocs_df configs' out :
  format_predictions shap_Explainer chunk_num_sentences configs pdo labels model
  = (Ok (df, iocs_df), configs', out) ->
  exists rs,
    effective_threshold configs
      (Prediction.score <$> classifier_max_scores model (processed_data pdo))
    = Ok (Configs.score configs')
    /\ rows df = row_cells chunk_num_sentences <$> rs
    /\ r_index <$> rs
       = List.filter
           (retained (Configs.score configs')
              (classifier_max_scores model (processed_data pdo)))
           (seq 0 (length (chunked_data pdo)))
    /\ (forall i, (i < length (chunked_data pdo))%nat ->
          exists o, classifier_max_scores model (processed_data pdo) !! i = Some o
            /\ (i ∈ r_index <$> rs
                <-> (Configs.score configs' <= Prediction.score o)%Q)
            /\ ((Prediction.score o < Configs.score configs')%Q ->
                i ∉ r_index <$> rs)).
Proof.
  intros (rs & Heff & Hrs & -> & _)%format_predictions_Ok.
  exists rs. split; [done|]. split; [apply rows_report_of|].
  pose proof (surviving_rows_indices _ _ _ _ _ _ _ _ Hrs) as Hidx.
  split; [done|]. intros i Hi. rewrite Hidx.
  destruct (surviving_rows_outputs _ _ _ _ _ _ _ _ Hrs i Hi) as [o Ho].
  cbn in Ho. exists o. split; [done|].
  assert (Hiff : i ∈ List.filter
                   (retained (Configs.score configs')
                      (classifier_max_scores model (processed_data pdo)))
                   (seq 0 (length (chunked_data pdo)))
                 <-> (Configs.score configs' <= Prediction.score o)%Q).
  { rewrite elem_of_filter_retained. split.
    - intros [_ (o' & Ho' & Hle)]. congruence.
    - intros Hle. split; [done|]. by exists o. }
  split; [done|]. intros Hlt Hin%Hiff. exact (Qlt_not_le _ _ Hlt Hin).
Qed.

(** C4.  When [format_predictions] returns, a chunk that passes the filter
    and whose label is LABEL_<n>, with class index [n] mapped to a
    technique and the technique to a display name, has a report row whose
    prediction carries the technique, the display name and the URL
    https://attack.mitre.org/techniques/<technique>/. *)
Theorem report_row_technique configs pdo labels model df iocs_df configs' out
    (i : nat) (n : N) (o : Prediction.t) (technique name : string) :
  format_predictions shap_Explainer chunk_num_sentences configs pdo labels model
  = (Ok (df, iocs_df), configs', out) ->
  (i < length (chunked_data pdo))%nat ->
  classifier_max_scores model (processed_data pdo) !! i = Some o ->
  (Configs.score configs' <= Prediction.score o)%Q ->
  Prediction.label o = "LABEL_" ++ PyStr.of_int (Z.of_N n) ->
  label_to_technique labels !! Z.of_N n = Some technique ->
  technique_to_name labels !! technique = Some name ->
  exists row,
    row ∈ rows df
    /\ row !! 0%nat = Some (CInt (Z.of_nat i + 1))
    /\ row !! 4%nat
       = Some (COutput
                 (Prediction.mk (Prediction.label o) (Prediction.score o)
                    (Some technique) (Some name)
                    (Some ("https://attack.mitre.org/techniques/" ++ technique
                           ++ "/")))).
Proof.
  intros (rs & _ & Hrs & -> & _)%format_predictions_Ok Hi Ho Hle Hlab Ht Hn.
  pose proof (surviving_rows_indices _ _ _ _ _ _ _ _ Hrs) as Hidx.
  assert (Hin : i ∈ r_index <$> rs).
  { rewrite Hidx. apply elem_of_filter_retained. split; [done|]. by exists o. }
  apply list_elem_of_fmap in Hin as (r & -> & Hin).
  destruct (surviving_rows_elem _ _ _ _ _ _ _ _ _ Hrs Hin)
    as (chunk & o' & _ & _ & Ho' & Hmk).
  rewrite Ho in Ho'. injection Ho' as <-.
  apply make_row_inv in Hmk as (_ & _ & _ & _ & He & _).
  rewrite (enrich_label_N labels n o technique name Hlab Ht Hn) in He.
  injection He as He.
  exists (row_cells chunk_num_sentences r). split.
  - rewrite rows_report_of. apply list_elem_of_fmap. by exists r.
  - cbn. by rewrite <- He.
Qed.

(** C7.  When [format_predictions] returns: if no chunk passes the filter
    the report is the empty data frame; otherwise its columns are, in this
    order, chunk ordinal, sentence range, raw text, processed text,
    enriched prediction, model identifier, IOCs, attribution base and
    attribution buckets, and every row holds its cells in that order. *)
Theorem report_shape configs pdo labels model df iocs_df configs' out :
  format_predictions shap_Explainer chunk_num_sentences configs pdo labels model
  = (Ok (df, iocs_df), configs', out) ->
  let survivors :=
    List.filter
      (retained (Configs.score configs')
         (classifier_max_scores model (processed_data pdo)))
      (seq 0 (length (chunked_data pdo))) in
  (survivors = [] -> df = DataFrame_empty)
  /\ (survivors <> [] ->
      columns df
      = ["chunk_#"; "sentences_#"; "threat_intel"; "processed_threat_intel";
         "output"; "model"; "iocs"; "shap_base"; "shap_contribution"]
      /\ length (rows df) = length survivors
      /\ Forall
           (fun row => exists ordinal range raw processed prediction ioc base buckets,
              row = [CInt ordinal; CStr range; CStr raw; CStr processed;
                     COutput prediction; CStr "distilgpt2-512"; CIocs ioc;
                     CShapBase base; CShapContribution buckets])
           (rows df)).
Proof.
  intros (rs & _ & Hrs & -> & _)%format_predictions_Ok. cbv zeta.
  rewrite <- (surviving_rows_indices _ _ _ _ _ _ _ _ Hrs).
  split.
  - intros Hnil%fmap_nil_inv. by subst rs.
  - intros Hne. destruct rs as [|r rs]; [done|]. cbn [report_of columns rows].
    split; [done|]. split; [by rewrite !length_fmap|].
    apply Forall_fmap, Forall_forall. intros r' _. cbn. by do 8 eexists.
Qed.

End FormatPredictions.

(** ** IOC aggregation (claims C6 and C8) *)

Section SuperDict.

Implicit Types (sd d : ioc_dict) (kvs : list (string * list string)).

Lemma merge_step_elem sd kv k v :
  v ∈ default [] (merge_step sd kv !! k)
  <-> v ∈ default [] (sd !! k) \/ (k = kv.1 /\ v ∈ kv.2).
Proof.
  unfold merge_step. destruct (decide (kv.1 = k)) as [<-|Hne].
  - rewrite lookup_insert_eq. cbn.
    rewrite elem_of_elements, elem_of_list_to_set, elem_of_app. tauto.
  - rewrite lookup_insert_ne by done. split; [by left|].
    intros [?|[-> _]]; [done|]. by destruct Hne.
Qed.

Lemma merge_step_NoDup sd kv :
  (forall k, NoDup (default [] (sd !! k))) ->
  forall k, NoDup (default [] (merge_step sd kv !! k)).
Proof.
  intros H k. unfold merge_step. destruct (decide (kv.1 = k)) as [<-|Hne].
  - rewrite lookup_insert_eq. cbn. apply NoDup_elements.
  - rewrite lookup_insert_ne by done. apply H.
Qed.

Lemma foldl_merge_elem kvs sd k v :
  v ∈ default [] (foldl merge_step sd kvs !! k)
  <-> v ∈ default [] (sd !! k) \/ exists l, (k, l) ∈ kvs /\ v ∈ l.
Proof.
  revert sd. induction kvs as [|[k0 l0] kvs IH]; intros sd; cbn [foldl].
  - split; [auto|]. intros [?|(l & Hl & _)]; [done|]. by apply elem_of_nil in Hl.
  - rewrite IH, merge_step_elem. cbn [fst snd]. split.
    + intros [[?|[-> ?]]|(l & Hl & ?)]; [by left| |].
      * right. exists l0. split; [by left | done].
      * right. exists l. split; [by right | done].
    + intros [?|(l & [[= -> ->] | Hl]%elem_of_cons & ?)]; [by left; left | |].
      * left; right. done.
      * right. by exists l.
Qed.

Lemma foldl_merge_NoDup kvs sd :
  (forall k, NoDup (default [] (sd !! k))) ->
  forall k, NoDup (default [] (foldl merge_step sd kvs !! k)).
Proof.
  revert sd. induction kvs as [|kv kvs IH]; intros sd H; cbn [foldl]; [done|].
  apply IH. by apply merge_step_NoDup.
Qed.

Lemma merge_ioc_dict_elem sd d k v :
  v ∈ default [] (merge_ioc_dict sd d !! k)
  <-> v ∈ default [] (sd !! k) \/ exists l, d !! k = Some l /\ v ∈ l.
Proof.
  unfold merge_ioc_dict. rewrite foldl_merge_elem.
  by setoid_rewrite elem_of_map_to_list.
Qed.

(** [super_dict] holds, per type, the values of that type in any chunk. *)
Lemma ioc_super_dict_elem (ioc_dicts : list ioc_dict) k v :
  v ∈ default [] (ioc_super_dict ioc_dicts !! k)
  <-> exists d l, d ∈ ioc_dicts /\ d !! k = Some l /\ v ∈ l.
Proof.
  unfold ioc_super_dict.
  assert (Hgen : forall sd,
    v ∈ default [] (foldl merge_ioc_dict sd ioc_dicts !! k)
    <-> v ∈ default [] (sd !! k)
        \/ exists d l, d ∈ ioc_dicts /\ d !! k = Some l /\ v ∈ l).
  { induction ioc_dicts as [|d ds IH]; intros sd; cbn [foldl].
    - split; [auto|]. intros [?|(d & l & Hd & _)]; [done|].
      by apply elem_of_nil in Hd.
    - rewrite IH, merge_ioc_dict_elem. split.
      + intros [[?|(l & ? & ?)]|(d' & l & ? & ? & ?)]; [by left| |].
        * right. exists d, l. split; [by left | done].
        * right. exists d', l. split; [by right | done].
      + intros [?|(d' & l & [->|?]%elem_of_cons & ? & ?)]; [by left; left| |].
        * left; right. by exists l.
        * right. by exists d', l. }
  rewrite Hgen, lookup_empty. cbn. split; [|auto].
  intros [H|?]; [|done]. by apply elem_of_nil in H.
Qed.

(** and holds each of them once. *)
Lemma ioc_super_dict_NoDup (ioc_dicts : list ioc_dict) k :
  NoDup (default [] (ioc_super_dict ioc_dicts !! k)).
Proof.
  unfold ioc_super_dict.
  assert (Hgen : forall sd, (forall k, NoDup (default [] (sd !! k))) ->
    forall k, NoDup (default [] (foldl merge_ioc_dict sd ioc_dicts !! k))).
  { induction ioc_dicts as [|d ds IH]; intros sd H; cbn [foldl]; [done|].
    apply IH. unfold merge_ioc_dict. by apply foldl_merge_NoDup. }
  apply Hgen. intros k'. rewrite lookup_empty. constructor.
Qed.

End SuperDict.

Lemma DataFrame_of_records_uniform (keys : list string) (r : record) (rs : list record) :
  foldl add_column [] keys = keys ->
  (forall r', r' ∈ r :: rs -> r'.*1 = keys) ->
  columns (DataFrame_of_records (r :: rs)) = keys.
Proof.
  intros Hk Hu. unfold DataFrame_of_records. cbn [columns mbind list_bind].
  rewrite foldl_app, (Hu r) by (by left). rewrite Hk.
  apply foldl_add_column_absorb. intros k (r' & Hk' & Hr')%list_elem_of_bind.
  rewrite (Hu r') in Hk' by (by right). done.
Qed.

Lemma ioc_super_list_pairs (sd : ioc_dict) :
  ioc_super_list sd = ioc_record <$> ioc_pairs sd.
Proof.
  unfold ioc_super_list, ioc_pairs.
  induction (map_to_list sd) as [|[k l] kls IH]; [done|].
  cbn [mbind list_bind]. rewrite fmap_app, <- IH. f_equal.
  cbn [fst snd]. rewrite <- list_fmap_compose. by destruct l.
Qed.

Lemma elem_of_ioc_pairs (sd : ioc_dict) k v :
  (k, v) ∈ ioc_pairs sd <-> v ∈ default [] (sd !! k).
Proof.
  unfold ioc_pairs. rewrite list_elem_of_bind. split.
  - intros ([k' l] & Hin & Hkl%elem_of_map_to_list). cbn in Hin.
    apply list_elem_of_fmap in Hin as (v' & [= -> ->] & Hv). by rewrite Hkl.
  - destruct (sd !! k) as [l|] eqn:Hl; cbn; [|by intros ?%elem_of_nil].
    intros Hv. exists (k, l). split; [|by apply elem_of_map_to_list].
    cbn. apply list_elem_of_fmap. by exists v.
Qed.

Lemma NoDup_ioc_pairs (sd : ioc_dict) :
  (forall k, NoDup (default [] (sd !! k))) -> NoDup (ioc_pairs sd).
Proof.
  intros H. unfold ioc_pairs. apply NoDup_bind.
  - intros [k1 l1] [k2 l2] [k v] Hin1%elem_of_map_to_list Hin2%elem_of_map_to_list.
    cbn. intros (v1 & [= -> ->] & _)%list_elem_of_fmap
                (v2 & [= -> ->] & _)%list_elem_of_fmap.
    congruence.
  - intros [k l] Hin%elem_of_map_to_list. cbn.
    apply NoDup_fmap_2_strong; [by intros ?? _ _ [= ->]|].
    specialize (H k). by rewrite Hin in H.
  - apply NoDup_map_to_list.
Qed.

(** [transform_list_of_ioc_dicts] is the table of the pairs of [super_dict]. *)
Lemma transform_list_of_ioc_dicts_unfold (ioc_dicts : list ioc_dict) :
  transform_list_of_ioc_dicts ioc_dicts
  = match ioc_pairs (ioc_super_dict ioc_dicts) with
    | [] => DataFrame_empty
    | ps => {| columns := ["IOC_Type"; "IOC_Value"]; rows := ioc_row <$> ps |}
    end.
Proof.
  unfold transform_list_of_ioc_dicts. rewrite ioc_super_list_pairs.
  destruct (ioc_pairs _) as [|p ps]; [done|].
  cbn [fmap list_fmap length Nat.ltb Nat.leb].
  change (ioc_record p :: list_fmap _ _ ioc_record ps) with (ioc_record <$> p :: ps).
  pose proof (DataFrame_of_records_uniform ["IOC_Type"; "IOC_Value"]
                (ioc_record p) (ioc_record <$> ps) eq_refl) as Hc.
  unfold DataFrame_of_records in *. cbn [columns] in Hc.
  cbn [fmap list_fmap] in *. rewrite Hc.
  - f_equal. cbn. f_equal. change (list_fmap ?A ?B ?f ?l) with (f <$> l).
    rewrite <- list_fmap_compose. by apply list_fmap_ext.
  - intros r' [->|(p' & -> & _)%list_elem_of_fmap]%elem_of_cons; done.
Qed.

Lemma ioc_pairs_spec (ioc_dicts : list ioc_dict) k v :
  (k, v) ∈ ioc_pairs (ioc_super_dict ioc_dicts)
  <-> exists d l, d ∈ ioc_dicts /\ d !! k = Some l /\ v ∈ l.
Proof. by rewrite elem_of_ioc_pairs, ioc_super_dict_elem. Qed.

Lemma ioc_pairs_NoDup (ioc_dicts : list ioc_dict) :
  NoDup (ioc_pairs (ioc_super_dict ioc_dicts)).
Proof. apply NoDup_ioc_pairs. intros k. apply ioc_super_dict_NoDup. Qed.

Lemma rows_transform (ioc_dicts : list ioc_dict) :
  rows (transform_list_of_ioc_dicts ioc_dicts)
  = ioc_row <$> ioc_pairs (ioc_super_dict ioc_dicts).
Proof.
  rewrite transform_list_of_ioc_dicts_unfold. by destruct (ioc_pairs _).
Qed.

Lemma columns_transform (ioc_dicts : list ioc_dict) :
  ioc_pairs (ioc_super_dict ioc_dicts) <> [] ->
  columns (transform_list_of_ioc_dicts ioc_dicts) = ["IOC_Type"; "IOC_Value"].
Proof.
  rewrite transform_list_of_ioc_dicts_unfold. by destruct (ioc_pairs _).
Qed.

#[local] Instance ioc_row_inj : Inj (=) (=) ioc_row.
Proof. intros [k1 v1] [k2 v2] [= -> ->]. done. Qed.

(** C6.  The aggregate IOC table has no duplicate row; its rows are exactly
    the pairs (type, value) such that some chunk lists the value under the
    type, so a type with no value has no row; when no chunk lists any value
    the result is the empty data frame; a table with rows has the columns
    IOC_Type and IOC_Value.  The chunks [{"ip": ["1.1.1.1"]},
    {"ip": ["1.1.1.1", "2.2.2.2"]}] give exactly the two rows
    ("ip", "1.1.1.1") and ("ip", "2.2.2.2"). *)
Theorem ioc_table_rows (ioc_dicts : list ioc_dict) :
  let df := transform_list_of_ioc_dicts ioc_dicts in
  NoDup (rows df)
  /\ (forall row, row ∈ rows df
        <-> exists k v d l, row = [CStr k; CStr v]
              /\ d ∈ ioc_dicts /\ d !! k = Some l /\ v ∈ l)
  /\ ((forall d k l, d ∈ ioc_dicts -> d !! k = Some l -> l = []) ->
      df = DataFrame_empty)
  /\ (rows df <> [] -> columns df = ["IOC_Type"; "IOC_Value"])
  /\ rows (transform_list_of_ioc_dicts
             [ {[ "ip" := ["1.1.1.1"] ]}; {[ "ip" := ["1.1.1.1"; "2.2.2.2"] ]} ])
     ≡ₚ [[CStr "ip"; CStr "1.1.1.1"]; [CStr "ip"; CStr "2.2.2.2"]].
Proof.
  cbv zeta. rewrite rows_transform. split; [|split; [|split; [|split]]].
  - apply NoDup_fmap_2; [apply _ | apply ioc_pairs_NoDup].
  - intros row. rewrite list_elem_of_fmap. split.
    + intros ([k v] & -> & (d & l & ? & ? & ?)%ioc_pairs_spec). by exists k, v, d, l.
    + intros (k & v & d & l & -> & ? & ? & ?). exists (k, v). split; [done|].
      apply ioc_pairs_spec. by exists d, l.
  - intros Hnone. rewrite transform_list_of_ioc_dicts_unfold.
    destruct (ioc_pairs _) as [|[k v] ps] eqn:Hps; [done|]. exfalso.
    assert (Hin : (k, v) ∈ ioc_pairs (ioc_super_dict ioc_dicts))
      by (rewrite Hps; by left).
    apply ioc_pairs_spec in Hin as (d & l & Hd & Hl & Hv).
    rewrite (Hnone d k l Hd Hl) in Hv. by apply elem_of_nil in Hv.
  - intros Hne. apply columns_transform. intros Hnil. by rewrite Hnil in Hne.
  - assert (rows (transform_list_of_ioc_dicts
                    [ {[ "ip" := ["1.1.1.1"] ]}; {[ "ip" := ["1.1.1.1"; "2.2.2.2"] ]} ])
            = [[CStr "ip"; CStr "1.1.1.1"]; [CStr "ip"; CStr "2.2.2.2"]]) as ->
      by (by vm_compute).
    done.
Qed.

Lemma df_records_ioc (p : string * string) (ps : list (string * string)) :
  ioc_dict_of_record
    <$> df_records {| columns := ["IOC_Type"; "IOC_Value"];
                      rows := ioc_row <$> p :: ps |}
  = (fun q => {[ q.1 := [q.2] ]}) <$> p :: ps.
Proof.
  unfold df_records. cbn [columns rows]. rewrite <- !list_fmap_compose.
  by apply list_fmap_ext.
Qed.

Lemma ioc_pairs_singletons (ps : list (string * string)) k v :
  (k, v) ∈ ioc_pairs
             (ioc_super_dict ((fun q : string * string => {[ q.1 := [q.2] ]}) <$> ps))
  <-> (k, v) ∈ ps.
Proof.
  rewrite ioc_pairs_spec. split.
  - intros (d & l & ([k' v'] & -> & Hin)%list_elem_of_fmap & Hl & Hv).
    cbn in Hl. apply lookup_singleton_Some in Hl as [-> <-].
    apply list_elem_of_singleton in Hv as ->. done.
  - intros Hin. exists {[ k := [v] ]}, [v]. split; [|split].
    + apply list_elem_of_fmap. by exists (k, v).
    + apply lookup_singleton_eq.
    + by left.
Qed.

(** C8.  Aggregating the rows of an aggregate, each row reshaped as the IOC
    dictionary of one chunk, gives a table with the same columns and the same
    set of rows. *)
Theorem ioc_aggregation_idempotent (ioc_dicts : list ioc_dict) :
  let df := transform_list_of_ioc_dicts ioc_dicts in
  let df' := transform_list_of_ioc_dicts (ioc_dict_of_record <$> df_records df) in
  columns df' = columns df
  /\ rows df' ≡ₚ rows df
  /\ (forall row, row ∈ rows df' <-> row ∈ rows df).
Proof.
  cbv zeta.
  assert (Hperm :
    ioc_pairs (ioc_super_dict
      (ioc_dict_of_record <$> df_records (transform_list_of_ioc_dicts ioc_dicts)))
    ≡ₚ ioc_pairs (ioc_super_dict ioc_dicts)).
  { rewrite (transform_list_of_ioc_dicts_unfold ioc_dicts).
    destruct (ioc_pairs (ioc_super_dict ioc_dicts)) as [|p ps] eqn:Hps; [done|].
    rewrite df_records_ioc.
    apply NoDup_Permutation.
    - apply ioc_pairs_NoDup.
    - rewrite <- Hps. apply ioc_pairs_NoDup.
    - intros [k v]. apply ioc_pairs_singletons. }
  assert (Hrows :
    rows (transform_list_of_ioc_dicts
            (ioc_dict_of_record <$> df_records (transform_list_of_ioc_dicts ioc_dicts)))
    ≡ₚ rows (transform_list_of_ioc_dicts ioc_dicts)).
  { rewrite !rows_transform. by apply fmap_Permutation. }
  split; [|split; [done|]].
  - rewrite (transform_list_of_ioc_dicts_unfold (_ <$> _)).
    rewrite (transform_list_of_ioc_dicts_unfold ioc_dicts) at 2.
    destruct (ioc_pairs (ioc_super_dict ioc_dicts)) as [|p ps].
    + apply Permutation_nil_r in Hperm. by rewrite Hperm.
    + destruct (ioc_pairs (ioc_super_dict (_ <$> _))) as [|p' ps']; [|done].
      by apply Permutation_nil_cons in Hperm.
  - intros row. by rewrite Hrows.
Qed.

(** ** Reading a report row (claim C9) *)


(** A position in range, counted from the front or from the end, has a row. *)
Lemma iloc_in_range (df : DataFrame) (i : Z) :
  (- Z.of_nat (df_len df) <= i < Z.of_nat (df_len df))%Z ->
  is_ok (iloc df i) = true.
Proof.
  intros H. unfold iloc, df_len in *.
  destruct (Z.leb_spec (- Z.of_nat (length (rows df))) i); [|lia].
  destruct (Z.ltb_spec i (Z.of_nat (length (rows df)))); [|lia]. cbn.
  destruct (rows df !! _) as [r|] eqn:Hr; [done|].
  apply lookup_ge_None in Hr. destruct (Z.ltb_spec i 0); lia.
Qed.


(** ** The claims at the inputs of the specification's examples *)

Lemma threshold_relaxation_witness :
  effective_threshold Inputs.configs_095 (Prediction.score <$> Inputs.outputs2)
  = Ok 0%Q
  /\ Inputs.call_095.1.2 = Configs.set_score 0 Inputs.configs_095
  /\ Inputs.call_095.2 = [Print [CStr relax_warning]]
  /\ (exists rs, rows (Inputs.report_of_call Inputs.call_095) = row_cells 3 <$> rs
        /\ r_index <$> rs = [0; 1]%nat)
  /\ is_ok Inputs.call_095.1.1 = true.
Proof.
  destruct (threshold_relaxation Inputs.explainer3 3 Inputs.configs_095
              Inputs.chunks2 Inputs.labels31 (Inputs.model_of Inputs.outputs2)
              (92 # 100)%Q)
    as (Heff & Hcfg & Hout & Hrows & Hret).
  - reflexivity.
  - reflexivity.
  - repeat constructor; by vm_compute.
  - split; [exact Heff|]. split; [exact Hcfg|]. split; [exact Hout|]. split.
    + apply (Hrows (Inputs.report_of_call Inputs.call_095)
               (Inputs.iocs_of_call Inputs.call_095)).
      by vm_compute.
    + apply Hret; try reflexivity. repeat constructor; by vm_compute.
Defined.

Lemma format_predictions_no_chunks_witness :
  format_predictions Inputs.explainer3 3 Inputs.configs_050 Inputs.no_chunks
    Inputs.labels3 (Inputs.model_of [])
  = (Raise (ValueError "max() arg is an empty sequence"), Inputs.configs_050, []).
Proof.
  apply (format_predictions_no_chunks Inputs.explainer3 3 Inputs.configs_050
           Inputs.no_chunks Inputs.labels3 (Inputs.model_of [])).
  reflexivity.
Defined.

Lemma call_050_returns :
  Inputs.call_050
  = (Ok (Inputs.report_of_call Inputs.call_050,
         Inputs.iocs_of_call Inputs.call_050),
     Inputs.configs_050, []).
Proof. by vm_compute. Defined.

Lemma report_rows_filter_witness :
  exists rs,
    rows (Inputs.report_of_call Inputs.call_050) = row_cells 3 <$> rs
    /\ r_index <$> rs = [0%nat].
Proof.
  destruct (report_rows_filter Inputs.explainer3 3 Inputs.configs_050
              Inputs.chunks2 Inputs.labels3 (Inputs.model_of Inputs.outputs2)
              _ _ _ _ call_050_returns) as (rs & _ & Hrows & Hidx & _).
  exists rs. split; [exact Hrows | exact Hidx].
Defined.

Lemma report_row_technique_witness :
  exists row,
    row ∈ rows (Inputs.report_of_call Inputs.call_050)
    /\ row !! 0%nat = Some (CInt 1)
    /\ row !! 4%nat = Some (COutput Inputs.enriched3).
Proof.
  apply (report_row_technique Inputs.explainer3 3 Inputs.configs_050
           Inputs.chunks2 Inputs.labels3 (Inputs.model_of Inputs.outputs2)
           _ _ _ _ 0%nat 3%N (Prediction.raw "LABEL_3" (92 # 100)) "T1566" "Phishing"
           call_050_returns).
  - cbn. lia.
  - reflexivity.
  - by vm_compute.
  - reflexivity.
  - reflexivity.
  - reflexivity.
Defined.

Lemma report_shape_witness :
  columns (Inputs.report_of_call Inputs.call_050) = report_columns
  /\ length (rows (Inputs.report_of_call Inputs.call_050)) = 1%nat.
Proof.
  destruct (report_shape Inputs.explainer3 3 Inputs.configs_050
              Inputs.chunks2 Inputs.labels3 (Inputs.model_of Inputs.outputs2)
              _ _ _ _ call_050_returns) as [_ Hrows].
  destruct (Hrows ltac:(by vm_compute)) as (Hcols & Hlen & _).
  split; [exact Hcols | exact Hlen].
Defined.

Lemma format_predictions_configs_witness :
  Inputs.call_095.1.2 = Configs.set_score 0 Inputs.configs_095
  /\ Inputs.call_050.1.2 = Inputs.configs_050.
Proof.
  split.
  - apply (format_predictions_configs Inputs.explainer3 3 Inputs.configs_095
             Inputs.chunks2 Inputs.labels31 (Inputs.model_of Inputs.outputs2)).
    exists (92 # 100)%Q. split; reflexivity.
  - apply (format_predictions_configs Inputs.explainer3 3 Inputs.configs_050
             Inputs.chunks2 Inputs.labels3 (Inputs.model_of Inputs.outputs2)).
    intros (best & Hbest & Hlt). injection Hbest as <-. by vm_compute in Hlt.
Defined.


(** The first example of the specification: one row, for chunk 0. *)
Example report_050 :
  rows (Inputs.report_of_call Inputs.call_050)
  = [[CInt 1; CStr "1-3"; CStr "c0"; CStr "p0"; COutput Inputs.enriched3;
      CStr "distilgpt2-512"; CIocs {[ "ip" := ["1.1.1.1"] ]};
      CShapBase Inputs.shap_base3; CShapContribution Inputs.shap_contribution3]].
Proof. by vm_compute. Qed.

(** The second example: the threshold is relaxed and, class index 1 having no
    technique, the call raises KeyError after the warning. *)
Example call_095_unmapped_raises :
  Inputs.call_095_unmapped
  = (Raise (KeyError "1"), Configs.set_score 0 Inputs.configs_095,
     [Print [CStr relax_warning]]).
Proof. by vm_compute. Qed.

(** With both class indices mapped the relaxed call reports both chunks. *)
Example report_095 :
  length (rows (Inputs.report_of_call Inputs.call_095)) = 2%nat.
Proof. by vm_compute. Qed.

(** A negative position reads from the end of the report. *)
Example iloc_last :
  iloc (Inputs.report_of_call Inputs.call_095) (-1)
  = iloc (Inputs.report_of_call Inputs.call_095) 1.
Proof. by vm_compute. Qed.

(** Predictions without chunks: no chunk passes the filter and both tables
    are the empty data frame. *)
Example report_unchunked :
  format_predictions Inputs.explainer3 3 Inputs.configs_050 Inputs.unchunked
    Inputs.labels3 (Inputs.model_of Inputs.outputs2)
  = (Ok (DataFrame_empty, DataFrame_empty), Inputs.configs_050, []).
Proof. by vm_compute. Qed.

(** * Further properties of the code *)

(** ** What [format_predictions] puts in a row *)

(** An enriched prediction keeps the label and the score and carries the
    technique of its class index, that technique's name and its URL. *)
Lemma enrich_inv (labels : Labels) (o o' : Prediction.t) :
  enrich labels o = Ok o' ->
  exists index class technique name,
    PyStr.split "_" (Prediction.label o) !! 1%nat = Some index
    /\ PyStr.to_int index = Ok class
    /\ label_to_technique labels !! class = Some technique
    /\ technique_to_name labels !! technique = Some name
    /\ o' = Prediction.mk (Prediction.label o) (Prediction.score o)
              (Some technique) (Some name) (Some (webpage technique)).
Proof.
  unfold enrich, getitem.
  destruct (list_getitem _ 1) as [ix|] eqn:Hix; cbn; [|discriminate].
  apply list_getitem_Ok in Hix.
  destruct (PyStr.to_int ix) as [cl|] eqn:Hcl; cbn; [|discriminate].
  destruct (label_to_technique labels !! cl) as [t|] eqn:Ht; cbn; [|discriminate].
  destruct (technique_to_name labels !! t) as [n|] eqn:Hn; cbn; [|discriminate].
  intros [= <-]. by exists ix, cl, t, n.
Qed.

(** The row of a retained chunk is among the surviving rows. *)
Lemma surviving_rows_retained threshold pdo labels shap_obj outputs chunks rs i o :
  surviving_rows threshold pdo labels shap_obj outputs 0 chunks = Ok rs ->
  (i < length chunks)%nat ->
  outputs !! i = Some o ->
  (threshold <= Prediction.score o)%Q ->
  exists r chunk, r ∈ rs /\ r_index r = i /\ chunks !! i = Some chunk
    /\ make_row pdo labels shap_obj i chunk o = Ok r.
Proof.
  intros Hrs Hi Ho Hle.
  assert (Hin : i ∈ r_index <$> rs).
  { rewrite (surviving_rows_indices _ _ _ _ _ _ _ _ Hrs).
    apply elem_of_filter_retained. split; [done|]. by exists o. }
  apply list_elem_of_fmap in Hin as (r & -> & Hin).
  destruct (surviving_rows_elem _ _ _ _ _ _ _ _ _ Hrs Hin)
    as (chunk & o' & _ & Hch & Ho' & Hmk).
  rewrite Ho in Ho'. injection Ho' as <-. rewrite Nat.sub_0_r in Hch.
  by exists r, chunk.
Qed.

Lemma effective_threshold_cases configs scores best thr :
  py_max scores = Ok best ->
  effective_threshold configs scores = Ok thr ->
  (Qltb best (Configs.score configs) = true /\ thr = 0%Q)
  \/ (Qltb best (Configs.score configs) = false /\ thr = Configs.score configs).
Proof.
  unfold effective_threshold. intros ->. cbn.
  destruct (Qltb best (Configs.score configs)); intros [= <-]; auto.
Qed.

Lemma surviving_rows_labels_ext threshold pdo labels labels' shap_obj outputs chunks i :
  (forall j o, (i <= j)%nat -> outputs !! j = Some o ->
     (threshold <= Prediction.score o)%Q -> enrich labels o = enrich labels' o) ->
  surviving_rows threshold pdo labels shap_obj outputs i chunks
  = surviving_rows threshold pdo labels' shap_obj outputs i chunks.
Proof.
  revert i. induction chunks as [|c chunks IH]; intros i H; cbn; [done|].
  destruct (list_getitem outputs i) as [o|] eqn:Ho; cbn; [|done].
  apply list_getitem_Ok in Ho.
  rewrite (IH (S i)) by (intros j o' Hj; apply H; lia).
  destruct (Qltb _ _) eqn:E; [done|].
  unfold make_row. rewrite (H i o (le_n _) Ho) by (by apply Qltb_ge). done.
Qed.

(** A stricter threshold keeps a sublist of the rows. *)
Lemma surviving_rows_sublist t1 t2 pdo labels shap_obj outputs chunks i rs1 rs2 :
  (t1 <= t2)%Q ->
  surviving_rows t1 pdo labels shap_obj outputs i chunks = Ok rs1 ->
  surviving_rows t2 pdo labels shap_obj outputs i chunks = Ok rs2 ->
  sublist rs2 rs1.
Proof.
  intros Hle. revert i rs1 rs2.
  induction chunks as [|c chunks IH]; intros i rs1 rs2; cbn.
  - intros [= <-] [= <-]. constructor.
  - destruct (list_getitem outputs i) as [o|]; cbn; [|discriminate].
    destruct (Qltb (Prediction.score o) t1) eqn:E1.
    + assert (Qltb (Prediction.score o) t2 = true) as ->.
      { apply Qltb_lt. apply Qltb_lt in E1. by eapply Qlt_le_trans. }
      apply IH.
    + destruct (make_row _ _ _ _ _ _) as [r|]; cbn; [|discriminate].
      destruct (surviving_rows t1 _ _ _ _ _ _) as [rs1'|] eqn:H1; cbn; [|discriminate].
      intros [= <-].
      destruct (Qltb (Prediction.score o) t2).
      * intros H2. apply sublist_cons. by eapply IH.
      * destruct (surviving_rows t2 _ _ _ _ _ _) as [rs2'|] eqn:H2; cbn;
          [|discriminate].
        intros [= <-]. apply sublist_skip. by eapply IH.
Qed.

Section FormatPredictionsMore.

Variable shap_Explainer :
  (list string -> list Prediction.t) -> string -> string -> Explanation.
Variable chunk_num_sentences : Z.

Lemma format_predictions_raises configs pdo labels model :
  (forall df iocs_df configs' out,
     format_predictions shap_Explainer chunk_num_sentences configs pdo labels model
     = (Ok (df, iocs_df), configs', out) -> False) ->
  is_ok (format_predictions shap_Explainer chunk_num_sentences configs pdo labels
           model).1.1 = false.
Proof.
  intros H.
  destruct (format_predictions _ _ _ _ _ _) as [[[[df iocs_df]|e] configs'] out] eqn:E;
    [|done].
  destruct (H df iocs_df configs' out eq_refl).
Qed.

(** X1.  With as many chunks as predictions and a best confidence >= 0, a
    report that is returned is never empty: it has a row whose prediction
    carries the best confidence. *)
Theorem report_nonempty configs pdo labels model df iocs_df configs' out best :
  format_predictions shap_Explainer chunk_num_sentences configs pdo labels model
  = (Ok (df, iocs_df), configs', out) ->
  py_max (Prediction.score <$> classifier_max_scores model (processed_data pdo))
  = Ok best ->
  (0 <= best)%Q ->
  (length (classifier_max_scores model (processed_data pdo))
   <= length (chunked_data pdo))%nat ->
  df_empty df = false
  /\ exists row o, row ∈ rows df /\ row !! 4%nat = Some (COutput o)
       /\ Prediction.score o = best.
Proof.
  intros (rs & Heff & Hrs & -> & _)%format_predictions_Ok Hmax Hpos Hlen.
  destruct (py_max_spec _ _ Hmax) as [Hin _].
  apply list_elem_of_fmap in Hin as (o & -> & Hin).
  apply list_elem_of_lookup in Hin as [i Hi].
  assert (Hthr : (Configs.score configs' <= Prediction.score o)%Q).
  { destruct (effective_threshold_cases _ _ _ _ Hmax Heff) as [[_ ->] | [E ->]];
      [done | by apply Qltb_ge]. }
  destruct (surviving_rows_retained _ _ _ _ _ _ _ i o Hrs) as (r & chunk & Hr & _ & _ & Hmk);
    [apply lookup_lt_Some in Hi; lia | done | done |].
  apply make_row_inv in Hmk as (_ & _ & _ & _ & He & _).
  apply enrich_inv in He as (? & ? & ? & ? & _ & _ & _ & _ & He).
  destruct rs as [|r0 rs]; [by apply elem_of_nil in Hr|].
  split; [done|].
  exists (row_cells chunk_num_sentences r), (r_output r). split; [|split].
  - cbn [report_of rows]. apply list_elem_of_fmap. by exists r.
  - done.
  - by rewrite He.
Qed.

(** X2.  With fewer predictions than chunks the call raises: it returns no
    report. *)
Theorem too_few_predictions configs pdo labels model :
  (length (classifier_max_scores model (processed_data pdo))
   < length (chunked_data pdo))%nat ->
  is_ok (format_predictions shap_Explainer chunk_num_sentences configs pdo labels
           model).1.1 = false.
Proof.
  intros Hlt. apply format_predictions_raises.
  intros df iocs_df configs' out (rs & _ & Hrs & _)%format_predictions_Ok.
  destruct (surviving_rows_outputs _ _ _ _ _ _ _ _ Hrs _ Hlt) as [o Ho].
  cbn in Ho. apply lookup_lt_Some in Ho. lia.
Qed.

(** X3.  A chunk that passes the filter and whose label does not resolve is
    fatal: the call returns no report. *)
Theorem unresolved_label_fatal configs pdo labels model thr i o :
  effective_threshold configs
    (Prediction.score <$> classifier_max_scores model (processed_data pdo))
  = Ok thr ->
  (i < length (chunked_data pdo))%nat ->
  classifier_max_scores model (processed_data pdo) !! i = Some o ->
  (thr <= Prediction.score o)%Q ->
  is_ok (enrich labels o) = false ->
  is_ok (format_predictions shap_Explainer chunk_num_sentences configs pdo labels
           model).1.1 = false.
Proof.
  intros Heff Hi Ho Hle Hbad. apply format_predictions_raises.
  intros df iocs_df configs' out (rs & Heff' & Hrs & _)%format_predictions_Ok.
  rewrite Heff in Heff'. injection Heff' as ->.
  destruct (surviving_rows_retained _ _ _ _ _ _ _ i o Hrs Hi Ho Hle)
    as (r & chunk & _ & _ & _ & Hmk).
  apply make_row_inv in Hmk as (_ & _ & _ & _ & He & _).
  by rewrite He in Hbad.
Qed.

(** X4.  The label tables are consulted for the chunks that pass the filter
    only: two label tables that resolve those predictions alike give the same
    result, whatever they hold for the skipped ones. *)
Theorem skipped_labels_unused configs pdo labels labels' model :
  (forall thr o,
     effective_threshold configs
       (Prediction.score <$> classifier_max_scores model (processed_data pdo))
     = Ok thr ->
     o ∈ classifier_max_scores model (processed_data pdo) ->
     (thr <= Prediction.score o)%Q ->
     enrich labels o = enrich labels' o) ->
  format_predictions shap_Explainer chunk_num_sentences configs pdo labels model
  = format_predictions shap_Explainer chunk_num_sentences configs pdo labels' model.
Proof.
  intros H. rewrite !format_predictions_unfold. cbv zeta.
  unfold effective_threshold in H.
  destruct (py_max _) as [best|e]; [|done]. cbn in H.
  rewrite (surviving_rows_labels_ext _ pdo labels labels'); [done|].
  intros j o _ Ho Hle. apply (H _ o eq_refl); [by eapply list_elem_of_lookup_2|].
  by destruct (Qltb best (Configs.score configs)).
Qed.

Lemma report_row_inv configs pdo labels model df iocs_df configs' out row :
  format_predictions shap_Explainer chunk_num_sentences configs pdo labels model
  = (Ok (df, iocs_df), configs', out) ->
  row ∈ rows df ->
  exists r chunk o,
    row = row_cells chunk_num_sentences r
    /\ chunked_data pdo !! r_index r = Some chunk
    /\ classifier_max_scores model (processed_data pdo) !! r_index r = Some o
    /\ make_row pdo labels
         (ShapPipeline_init shap_Explainer (classifier_max_scores model))
         (r_index r) chunk o = Ok r.
Proof.
  intros (rs & _ & Hrs & -> & _)%format_predictions_Ok.
  rewrite rows_report_of. intros (r & -> & Hin)%list_elem_of_fmap.
  destruct (surviving_rows_elem _ _ _ _ _ _ _ _ _ Hrs Hin)
    as (chunk & o & _ & Hch & Ho & Hmk).
  rewrite Nat.sub_0_r in Hch. by exists r, chunk, o.
Qed.

(** X5.  In every row of a returned report the prediction is the
    classifier's output for that chunk, label and score unchanged, with the
    technique of the label's class index, the name of that technique and the
    URL built from that same technique. *)
Theorem report_row_prediction configs pdo labels model df iocs_df configs' out row :
  format_predictions shap_Explainer chunk_num_sentences configs pdo labels model
  = (Ok (df, iocs_df), configs', out) ->
  row ∈ rows df ->
  exists (i : nat) o o' index class technique name,
    row !! 0%nat = Some (CInt (Z.of_nat i + 1))
    /\ classifier_max_scores model (processed_data pdo) !! i = Some o
    /\ row !! 4%nat = Some (COutput o')
    /\ Prediction.label o' = Prediction.label o
    /\ Prediction.score o' = Prediction.score o
    /\ PyStr.split "_" (Prediction.label o) !! 1%nat = Some index
    /\ PyStr.to_int index = Ok class
    /\ label_to_technique labels !! class = Some technique
    /\ technique_to_name labels !! technique = Some name
    /\ Prediction.technique o' = Some technique
    /\ Prediction.technique_name o' = Some name
    /\ Prediction.webpage_link o'
       = Some ("https://attack.mitre.org/techniques/" ++ technique ++ "/").
Proof.
  intros Hret Hrow.
  destruct (report_row_inv _ _ _ _ _ _ _ _ _ Hret Hrow)
    as (r & chunk & o & -> & _ & Ho & Hmk).
  apply make_row_inv in Hmk as (_ & _ & _ & _ & He & _).
  apply enrich_inv in He as (ix & cl & t & n & Hix & Hcl & Ht & Hn & He).
  exists (r_index r), o, (r_output r), ix, cl, t, n.
  split; [done|]. split; [done|]. split; [done|]. rewrite He. done.
Qed.

(** X6.  Every row of a returned report joins the entries of one position
    [i] of the parallel inputs: ordinal i+1, the label "i*S+1-i*S+3", the raw
    and the processed text and the IOCs of chunk [i]; its attribution is the
    one computed from the raw text and the enriched prediction. *)
Theorem report_row_join configs pdo labels model df iocs_df configs' out row :
  format_predictions shap_Explainer chunk_num_sentences configs pdo labels model
  = (Ok (df, iocs_df), configs', out) ->
  row ∈ rows df ->
  exists (i : nat) chunk processed ioc o' sb sc,
    chunked_data pdo !! i = Some chunk
    /\ processed_data pdo !! i = Some processed
    /\ iocs pdo !! i = Some ioc
    /\ ShapPipeline_go
         (ShapPipeline_init shap_Explainer (classifier_max_scores model)) chunk o'
       = Ok (sb, sc)
    /\ row = [CInt (Z.of_nat i + 1);
              CStr (PyStr.of_int (Z.of_nat i * chunk_num_sentences + 1) ++ "-"
                    ++ PyStr.of_int (Z.of_nat i * chunk_num_sentences + 3));
              CStr chunk; CStr processed; COutput o'; CStr "distilgpt2-512";
              CIocs ioc; CShapBase sb; CShapContribution sc].
Proof.
  intros Hret Hrow.
  destruct (report_row_inv _ _ _ _ _ _ _ _ _ Hret Hrow)
    as (r & chunk & o & -> & Hch & _ & Hmk).
  apply make_row_inv in Hmk as (_ & Hti & Hp & Hi & _ & Hgo).
  exists (r_index r), chunk, (r_processed r), (r_iocs r), (r_output r),
    (r_shap_base r), (r_shap_contribution r).
  subst chunk. repeat split; done.
Qed.

(** X7.  The IOC table of a returned call lists the IOCs of every chunk,
    also of the chunks the confidence filter skipped. *)
Theorem ioc_table_all_chunks configs pdo labels model df iocs_df configs' out
    (d : ioc_dict) k l v :
  format_predictions shap_Explainer chunk_num_sentences configs pdo labels model
  = (Ok (df, iocs_df), configs', out) ->
  d ∈ iocs pdo -> d !! k = Some l -> v ∈ l ->
  [CStr k; CStr v] ∈ rows iocs_df.
Proof.
  intros (rs & _ & _ & _ & ->)%format_predictions_Ok Hd Hl Hv.
  rewrite rows_transform. apply list_elem_of_fmap. exists (k, v). split; [done|].
  apply ioc_pairs_spec. by exists d, l.
Qed.

(** X8.  The relaxed threshold stays in [configs]: with confidences >= 0, a
    second call on the same inputs with the [configs] the first call left
    gives the same result, leaves [configs] as it is and prints no warning. *)
Theorem second_call_same configs pdo labels model :
  Forall (fun o => (0 <= Prediction.score o)%Q)
    (classifier_max_scores model (processed_data pdo)) ->
  let r1 :=
    format_predictions shap_Explainer chunk_num_sentences configs pdo labels model in
  let r2 :=
    format_predictions shap_Explainer chunk_num_sentences r1.1.2 pdo labels model in
  r2.1.1 = r1.1.1 /\ r2.1.2 = r1.1.2 /\ r2.2 = [].
Proof.
  intros Hpos. cbv zeta. rewrite (format_predictions_unfold _ _ configs). cbv zeta.
  destruct (py_max _) as [best|e] eqn:Hmax.
  - destruct (Qltb best (Configs.score configs)) eqn:E; cbn [fst snd].
    + rewrite format_predictions_unfold. cbv zeta. rewrite Hmax.
      assert (Qltb best (Configs.score (Configs.set_score 0 configs)) = false) as ->.
      { apply Qltb_ge. cbn. destruct (py_max_spec _ _ Hmax) as [Hin _].
        apply list_elem_of_fmap in Hin as (o & -> & Hin).
        rewrite Forall_forall in Hpos. by apply Hpos. }
      done.
    + rewrite format_predictions_unfold. cbv zeta. rewrite Hmax, E. done.
  - cbn [fst snd]. rewrite format_predictions_unfold. cbv zeta. by rewrite Hmax.
Qed.

(** X9.  Below the best confidence the filter is monotone: of two calls that
    return, the one with the higher threshold reports a sublist of the rows
    of the other. *)
Theorem stricter_threshold_sublist c1 c2 pdo labels model best
    df1 iocs1 c1' out1 df2 iocs2 c2' out2 :
  py_max (Prediction.score <$> classifier_max_scores model (processed_data pdo))
  = Ok best ->
  (Configs.score c1 <= Configs.score c2)%Q ->
  (Configs.score c2 <= best)%Q ->
  format_predictions shap_Explainer chunk_num_sentences c1 pdo labels model
  = (Ok (df1, iocs1), c1', out1) ->
  format_predictions shap_Explainer chunk_num_sentences c2 pdo labels model
  = (Ok (df2, iocs2), c2', out2) ->
  sublist (rows df2) (rows df1).
Proof.
  intros Hmax H12 H2b (rs1 & Heff1 & Hrs1 & -> & _)%format_predictions_Ok
    (rs2 & Heff2 & Hrs2 & -> & _)%format_predictions_Ok.
  rewrite !rows_report_of. apply fmap_sublist.
  assert (Ht1 : Configs.score c1' = Configs.score c1).
  { destruct (effective_threshold_cases _ _ _ _ Hmax Heff1) as [[E _] | [_ ->]];
      [|done].
    apply Qltb_lt in E. exfalso. apply (Qlt_not_le _ _ E). by eapply Qle_trans. }
  assert (Ht2 : Configs.score c2' = Configs.score c2).
  { destruct (effective_threshold_cases _ _ _ _ Hmax Heff2) as [[E _] | [_ ->]];
      [|done].
    apply Qltb_lt in E. exfalso. by apply (Qlt_not_le _ _ E). }
  rewrite Ht1 in Hrs1. rewrite Ht2 in Hrs2.
  exact (surviving_rows_sublist _ _ _ _ _ _ _ _ _ _ H12 Hrs1 Hrs2).
Qed.

End FormatPredictionsMore.

(** ** Parsing the class index out of a label *)

Lemma append_cons (a : ascii) (s1 s2 : string) :
  String a s1 ++ s2 = String a (s1 ++ s2).
Proof. reflexivity. Qed.

Lemma split_no_sep (c : ascii) (s : string) :
  str_contains c s = false -> PyStr.split c s = [s].
Proof.
  induction s as [|a r IH]; [done|]. cbn [str_contains PyStr.split].
  intros [Ha Hr]%orb_false_iff. by rewrite Ha, (IH Hr).
Qed.

Lemma split_app_sep (c : ascii) (p rest : string) :
  str_contains c p = false ->
  PyStr.split c (p ++ String c rest) = p :: PyStr.split c rest.
Proof.
  induction p as [|a r IH].
  - intros _. change ("" ++ String c rest) with (String c rest).
    cbn [PyStr.split]. by rewrite Ascii.eqb_refl.
  - cbn [str_contains]. intros [Ha Hr]%orb_false_iff.
    rewrite append_cons. cbn [PyStr.split]. by rewrite Ha, (IH Hr).
Qed.

Lemma digits_no_sep (s : string) :
  PyStr.all_digits s = true -> str_contains "_" s = false.
Proof.
  induction s as [|a r IH]; [done|]. cbn [PyStr.all_digits str_contains].
  intros [Ha Hr]%andb_true_iff. rewrite (IH Hr), orb_false_r.
  destruct (Ascii.eqb_spec a "_") as [->|]; [discriminate Ha | done].
Qed.

(** X10.  A label without an underscore has no second field: resolving it
    raises IndexError. *)
Theorem enrich_no_underscore (labels : Labels) (o : Prediction.t) :
  str_contains "_" (Prediction.label o) = false ->
  enrich labels o = Raise (IndexError "list index out of range").
Proof.
  intros H. unfold enrich. by rewrite (split_no_sep _ _ H).
Qed.

Lemma enrich_no_underscore_witness :
  enrich Inputs.labels3 (Prediction.raw "LABEL3" 1)
  = Raise (IndexError "list index out of range").
Proof.
  apply (enrich_no_underscore Inputs.labels3 (Prediction.raw "LABEL3" 1)).
  reflexivity.
Defined.

(** X11.  Only the text between the first and the second underscore is
    parsed: whatever precedes the first underscore and whatever follows the
    second, the label resolves to the technique of that class index. *)
Theorem enrich_second_field (labels : Labels) (o : Prediction.t)
    (prefix suffix : string) (n : N) (technique name : string) :
  str_contains "_" prefix = false ->
  Prediction.label o
  = prefix ++ "_" ++ PyStr.of_int (Z.of_N n) ++ "_" ++ suffix ->
  label_to_technique labels !! Z.of_N n = Some technique ->
  technique_to_name labels !! technique = Some name ->
  enrich labels o
  = Ok (Prediction.mk (Prediction.label o) (Prediction.score o) (Some technique)
          (Some name) (Some (webpage technique))).
Proof.
  intros Hp Hl Ht Hn.
  assert (Hs : PyStr.split "_" (Prediction.label o)
               = prefix :: PyStr.of_int (Z.of_N n) :: PyStr.split "_" suffix).
  { rewrite Hl.
    change ("_" ++ PyStr.of_int (Z.of_N n) ++ "_" ++ suffix)
      with (String "_" (PyStr.of_int (Z.of_N n) ++ String "_" suffix)).
    by rewrite (split_app_sep _ _ _ Hp),
      (split_app_sep _ _ _ (digits_no_sep _ (of_int_N_digits n))). }
  unfold enrich. rewrite Hs. cbn. rewrite to_int_of_int_N. cbn.
  unfold getitem. rewrite Ht. cbn. by rewrite Hn.
Qed.

Lemma enrich_second_field_witness :
  enrich Inputs.labels3 (Prediction.raw "CLASS_3_v2" 1)
  = Ok (Prediction.mk "CLASS_3_v2" 1 (Some "T1566") (Some "Phishing")
          (Some "https://attack.mitre.org/techniques/T1566/")).
Proof.
  apply (enrich_second_field Inputs.labels3 (Prediction.raw "CLASS_3_v2" 1)
           "CLASS" "v2" 3%N "T1566" "Phishing"); reflexivity.
Defined.

(** ** More on [ShapPipeline.go] *)

Lemma ShapPipeline_go_base self text o sb sc :
  ShapPipeline_go self text o = Ok (sb, sc) ->
  sb = shap_base_of (explainer self text (Prediction.label o)).
Proof.
  unfold ShapPipeline_go. cbv zeta. cbn [values token_processed].
  rewrite !np_mask_fmap. cbn [mbind result_bind].
  do 3 destruct (np_mask (A:=string) _ _); cbn [mbind result_bind];
    try discriminate.
  intros Heq. by simplify_eq.
Qed.


Lemma foldl_insert_lookup_ne `{Countable K} {V : Type} (l : list (K * V))
    (m : gmap K V) (k : K) :
  k ∉ l.*1 -> foldl (fun m p => <[p.1 := p.2]> m) m l !! k = m !! k.
Proof.
  revert m. induction l as [|[k' v'] l IH]; intros m Hk; cbn; [done|].
  cbn in Hk. apply not_elem_of_cons in Hk as [Hne Hk].
  rewrite IH by done. by apply lookup_insert_ne.
Qed.

(** The entry of a key is the value of its last pair. *)
Lemma dict_of_pairs_app_last `{Countable K} {V : Type} (l1 l2 : list (K * V))
    (k : K) (v : V) :
  k ∉ l2.*1 -> dict_of_pairs (l1 ++ (k, v) :: l2)%list !! k = Some v.
Proof.
  intros Hk. unfold dict_of_pairs. rewrite foldl_app. cbn.
  rewrite foldl_insert_lookup_ne by done. apply lookup_insert_eq.
Qed.

Lemma bucket_last (f : string * Q -> bool) (l1 l2 : list (string * Q)) t v :
  f (t, v) = true ->
  (forall v', (t, v') ∈ l2 -> f (t, v') = false) ->
  dict_of_pairs (List.filter f (l1 ++ (t, v) :: l2)%list) !! t = Some v.
Proof.
  intros Hf Hlast. rewrite List.filter_app. cbn [List.filter]. rewrite Hf.
  apply dict_of_pairs_app_last.
  intros ([t' v'] & Ht & Hin)%list_elem_of_fmap. cbn in Ht. subst t'.
  apply list_elem_of_In, filter_In in Hin as [Hin Hf'].
  apply list_elem_of_In in Hin. by rewrite (Hlast v' Hin) in Hf'.
Qed.

(** X13.  Last write wins inside a bucket: a token's entry is the
    contribution of its last occurrence among those of that sign. *)
Theorem bucket_last_write_wins self text o sb sc
    (l1 l2 : list (string * Q)) (t : string) (v : Q) :
  ShapPipeline_go self text o = Ok (sb, sc) ->
  zip (token_processed sb) (values sb) = (l1 ++ (t, v) :: l2)%list ->
  ((0 < v)%Q -> (forall v', (t, v') ∈ l2 -> ~ (0 < v')%Q) ->
     positive sc !! t = Some v)
  /\ ((v == 0)%Q -> (forall v', (t, v') ∈ l2 -> ~ (v' == 0)%Q) ->
      neutral sc !! t = Some v)
  /\ ((v < 0)%Q -> (forall v', (t, v') ∈ l2 -> ~ (v' < 0)%Q) ->
      negative sc !! t = Some v).
Proof.
  intros (_ & Hpos & Hneu & Hneg)%ShapPipeline_go_inv Hzip.
  rewrite Hpos, Hneu, Hneg. unfold positive_of, neutral_of, negative_of.
  rewrite Hzip. split; [|split]; intros Hv Hlast; apply bucket_last.
  - by apply Qltb_lt.
  - intros v' Hin. apply not_true_is_false. intros E%Qltb_lt. by apply (Hlast v').
  - by apply Qeqb_eq.
  - intros v' Hin. apply not_true_is_false. intros E%Qeqb_eq. by apply (Hlast v').
  - by apply Qltb_lt.
  - intros v' Hin. apply not_true_is_false. intros E%Qltb_lt. by apply (Hlast v').
Qed.

Lemma bucket_last_write_wins_witness :
  positive
    (match ShapPipeline_go Inputs.shap_dup "a a" (Prediction.raw "LABEL_0" 1) with
     | Ok (_, sc) => sc
     | Raise _ => {| positive := ∅; neutral := ∅; negative := ∅ |}
     end) !! "a"
  = Some (np_round5 2).
Proof.
  refine (proj1 (bucket_last_write_wins Inputs.shap_dup "a a"
                   (Prediction.raw "LABEL_0" 1) _ _
                   [("a", np_round5 1)] [] "a" (np_round5 2) _ _) _ _).
  - by vm_compute.
  - by vm_compute.
  - by vm_compute.
  - intros v' Hin. by apply elem_of_nil in Hin.
Defined.

(** ** Rounding decides the bucket *)





(** ** More on [transform_list_of_ioc_dicts] *)

(** Two chunk lists that list the same (type, value) pairs give tables with
    the same columns and the same rows up to their order. *)
Lemma transform_same_pairs (ds ds' : list ioc_dict) :
  (forall k v,
     (exists d l, d ∈ ds /\ d !! k = Some l /\ v ∈ l)
     <-> (exists d l, d ∈ ds' /\ d !! k = Some l /\ v ∈ l)) ->
  columns (transform_list_of_ioc_dicts ds) = columns (transform_list_of_ioc_dicts ds')
  /\ rows (transform_list_of_ioc_dicts ds) ≡ₚ rows (transform_list_of_ioc_dicts ds').
Proof.
  intros H.
  assert (Hperm : ioc_pairs (ioc_super_dict ds) ≡ₚ ioc_pairs (ioc_super_dict ds')).
  { apply NoDup_Permutation; [apply ioc_pairs_NoDup | apply ioc_pairs_NoDup |].
    intros [k v]. by rewrite !ioc_pairs_spec. }
  split; [|rewrite !rows_transform; by apply fmap_Permutation].
  rewrite !transform_list_of_ioc_dicts_unfold.
  destruct (ioc_pairs (ioc_super_dict ds)) as [|p ps];
    destruct (ioc_pairs (ioc_super_dict ds')) as [|p' ps']; try done.
  - by apply Permutation_nil_cons in Hperm.
  - symmetry in Hperm. by apply Permutation_nil_cons in Hperm.
Qed.

(** X15.  The order of the chunks does not matter: permuting the per-chunk
    IOC dictionaries gives a table with the same columns and the same rows up
    to their order. *)
Theorem ioc_table_chunk_order (ds ds' : list ioc_dict) :
  ds ≡ₚ ds' ->
  columns (transform_list_of_ioc_dicts ds) = columns (transform_list_of_ioc_dicts ds')
  /\ rows (transform_list_of_ioc_dicts ds) ≡ₚ rows (transform_list_of_ioc_dicts ds').
Proof.
  intros Hperm. apply transform_same_pairs. intros k v.
  split; intros (d & l & Hd & Hl & Hv); exists d, l.
  - by rewrite <- Hperm.
  - by rewrite Hperm.
Qed.

Lemma ioc_table_chunk_order_witness :
  rows (transform_list_of_ioc_dicts
          [ {[ "ip" := ["1.1.1.1"] ]}; {[ "url" := ["http://a"]; "ip" := ["2.2.2.2"] ]} ])
  ≡ₚ rows (transform_list_of_ioc_dicts
             [ {[ "url" := ["http://a"]; "ip" := ["2.2.2.2"] ]}; {[ "ip" := ["1.1.1.1"] ]} ]).
Proof.
  apply (ioc_table_chunk_order
           [ {[ "ip" := ["1.1.1.1"] ]}; {[ "url" := ["http://a"]; "ip" := ["2.2.2.2"] ]} ]
           [ {[ "url" := ["http://a"]; "ip" := ["2.2.2.2"] ]}; {[ "ip" := ["1.1.1.1"] ]} ]).
  apply perm_swap.
Defined.

(** X16.  Aggregation only accumulates: every row of the table of some
    chunks is a row of the table of those chunks and more, and listing the
    same chunks twice changes neither the columns nor the set of rows. *)
Theorem ioc_table_accumulates (ds ds' : list ioc_dict) :
  (forall row, row ∈ rows (transform_list_of_ioc_dicts ds) ->
     row ∈ rows (transform_list_of_ioc_dicts (ds ++ ds')))
  /\ columns (transform_list_of_ioc_dicts (ds ++ ds))
     = columns (transform_list_of_ioc_dicts ds)
  /\ rows (transform_list_of_ioc_dicts (ds ++ ds))
     ≡ₚ rows (transform_list_of_ioc_dicts ds).
Proof.
  split.
  - intros row. rewrite !rows_transform.
    intros ([k v] & -> & (d & l & Hd & Hl & Hv)%ioc_pairs_spec)%list_elem_of_fmap.
    apply list_elem_of_fmap. exists (k, v). split; [done|].
    apply ioc_pairs_spec. exists d, l. split; [|done].
    apply elem_of_app. by left.
  - apply transform_same_pairs. intros k v.
    split; intros (d & l & Hd & Hl & Hv); exists d, l; (split; [|done]).
    + by apply elem_of_app in Hd as [?|?].
    + apply elem_of_app. by left.
Qed.

(** ** Printing a report *)

Lemma io_bind_ok {A B : Type} (m : io A) (k : A -> io B) (a : A) :
  m.1 = Ok a -> (m ≫= k).1 = (k a).1.
Proof. unfold mbind, io_bind. by intros ->. Qed.

Lemma io_for_ok {A : Type} (l : list A) (body : A -> io unit) :
  (forall x, x ∈ l -> (body x).1 = Ok tt) -> (io_for l body).1 = Ok tt.
Proof.
  induction l as [|x l IH]; intros H; [done|]. cbn [io_for].
  rewrite (io_bind_ok _ _ tt) by (apply H; by left).
  apply IH. intros y Hy. apply H. by right.
Qed.

Lemma iloc_nat (df : DataFrame) (i : nat) (r : list cell) :
  rows df !! i = Some r -> iloc df (Z.of_nat i) = Ok (zip (columns df) r).
Proof.
  intros Hr. unfold iloc. pose proof (lookup_lt_Some _ _ _ Hr) as Hlt.
  destruct (Z.leb_spec (- Z.of_nat (length (rows df))) (Z.of_nat i)); [|lia].
  destruct (Z.ltb_spec (Z.of_nat i) (Z.of_nat (length (rows df)))); [|lia].
  destruct (Z.ltb_spec (Z.of_nat i) 0); [lia|]. cbn.
  by rewrite Nat2Z.id, Hr.
Qed.

Lemma iloc_inv (df : DataFrame) (i : Z) (s : record) :
  iloc df i = Ok s -> exists r, s = zip (columns df) r.
Proof.
  unfold iloc. destruct (_ && _); [|discriminate].
  destruct (rows df !! _) as [r|]; [|discriminate].
  intros [= <-]. by exists r.
Qed.

Lemma series_getitem_column (cols : list string) (r : list cell) (c : string) :
  is_ok (series_getitem (zip cols r) c) = true -> c ∈ cols.
Proof.
  unfold series_getitem. revert r.
  induction cols as [|c' cols IH]; intros [|x r]; cbn; try done.
  destruct (decide (c = c')) as [->|Hne]; [intros _; by left|].
  intros H. right. by eapply IH.
Qed.

(** The [try] block succeeds only on a row that has all six columns. *)
Lemma row_fields_columns (df : DataFrame) (i : Z) x (c : string) :
  row_fields df i = Ok x ->
  c ∈ ["threat_intel"; "processed_threat_intel"; "shap_base"; "output";
       "shap_contribution"; "sentences_#"] ->
  c ∈ columns df.
Proof.
  unfold row_fields. destruct (iloc df i) as [s|] eqn:Hs; cbn; [|discriminate].
  apply iloc_inv in Hs as [r ->].
  destruct (series_getitem _ "threat_intel") eqn:H1; cbn; [|discriminate].
  destruct (series_getitem _ "processed_threat_intel") eqn:H2; cbn; [|discriminate].
  destruct (series_getitem _ "shap_base") eqn:H3; cbn; [|discriminate].
  destruct (series_getitem _ "output") eqn:H4; cbn; [|discriminate].
  destruct (series_getitem _ "shap_contribution") eqn:H5; cbn; [|discriminate].
  destruct (series_getitem _ "sentences_#") eqn:H6; cbn; [|discriminate].
  intros _ Hc. apply (series_getitem_column _ r).
  repeat (apply elem_of_cons in Hc as [->|Hc]; [by rewrite ?H1, ?H2, ?H3, ?H4, ?H5, ?H6|]).
  by apply elem_of_nil in Hc.
Qed.

(** X17.  The bare [except] reports every failure of the row access as an
    IndexError: on a frame that lacks one of the six columns the function
    reads, any position, also one in range, raises "Index i is not in the
    dataframe." and prints nothing. *)
Theorem missing_column_index_error (py_repr : cell -> string) (df : DataFrame)
    (i : Z) (c : string) :
  c ∈ ["threat_intel"; "processed_threat_intel"; "shap_base"; "output";
       "shap_contribution"; "sentences_#"] ->
  c ∉ columns df ->
  _process_shap_explainability_for_row py_repr df i
  = (Raise (IndexError ("Index " ++ PyStr.of_int i ++ " is not in the dataframe.")),
     []).
Proof.
  intros Hc Hmiss. unfold _process_shap_explainability_for_row.
  destruct (row_fields df i) as [x|] eqn:Hx; [|done].
  destruct Hmiss. by eapply row_fields_columns.
Qed.

Lemma missing_column_index_error_witness :
  _process_shap_explainability_for_row (fun _ => "") Inputs.narrow_frame 0
  = (Raise (IndexError "Index 0 is not in the dataframe."), []).
Proof.
  apply (missing_column_index_error (fun _ => "") Inputs.narrow_frame 0 "threat_intel").
  - by left.
  - cbn. intros H. repeat (apply elem_of_cons in H as [H|H]; [discriminate H|]).
    by apply elem_of_nil in H.
Defined.

Lemma row_fields_report S (rs : list row_data) (i : nat) (r : row_data) :
  rs !! i = Some r ->
  row_fields {| columns := report_columns; rows := row_cells S <$> rs |} (Z.of_nat i)
  = Ok (CStr (r_threat_intel r), CStr (r_processed r), CShapBase (r_shap_base r),
        COutput (r_output r), CShapContribution (r_shap_contribution r),
        CStr (sentences S (r_index r))).
Proof.
  intros Hr. unfold row_fields.
  rewrite (iloc_nat _ i (row_cells S r)) by (cbn; by rewrite list_lookup_fmap, Hr).
  reflexivity.
Qed.

(** A row that [format_predictions] assembled prints without an exception. *)
Lemma process_row_report py_repr S (rs : list row_data) (i : nat) (r : row_data) :
  rs !! i = Some r ->
  (_process_shap_explainability_for_row py_repr
     {| columns := report_columns; rows := row_cells S <$> rs |} (Z.of_nat i)).1
  = Ok tt.
Proof.
  intros Hr. unfold _process_shap_explainability_for_row.
  rewrite (row_fields_report S rs i r Hr).
  cbn [str_add as_shap_base as_contribution].
  repeat (erewrite io_bind_ok by reflexivity; cbv beta zeta).
  destruct ((size (positive (r_shap_contribution r)) =? 0)%nat
            && (size (negative (r_shap_contribution r)) =? 0)%nat).
  - repeat (erewrite io_bind_ok by reflexivity; cbv beta zeta). reflexivity.
  - repeat (erewrite io_bind_ok by reflexivity; cbv beta zeta). reflexivity.
Qed.

(** X18.  [print_detailed_report] accepts every report that
    [format_predictions] returns: the empty one gets the no-technique
    message, and each row of a non-empty one is read and printed without an
    exception. *)
Theorem print_report_returns
    (shap_Explainer : (list string -> list Prediction.t) -> string -> string
                      -> Explanation)
    (chunk_num_sentences : Z) (py_repr : cell -> string)
    configs pdo labels model df iocs_df configs' out (shown : Configs.t) :
  format_predictions shap_Explainer chunk_num_sentences configs pdo labels model
  = (Ok (df, iocs_df), configs', out) ->
  (print_detailed_report py_repr df shown).1 = Ok tt.
Proof.
  intros (rs & _ & _ & -> & _)%format_predictions_Ok.
  destruct rs as [|r rs]; [reflexivity|].
  unfold print_detailed_report, report_of.
  do 5 (rewrite (io_bind_ok _ _ tt) by reflexivity).
  change (df_empty _) with false. cbv iota.
  rewrite (io_bind_ok _ _ tt) by reflexivity.
  apply io_for_ok. intros i Hi%list_elem_of_In%in_seq.
  unfold df_len in Hi. cbn [rows] in Hi. rewrite length_fmap in Hi.
  destruct (lookup_lt_is_Some_2 (r :: rs) i ltac:(lia)) as [r' Hr'].
  by apply (process_row_report py_repr chunk_num_sentences (r :: rs) i r').
Qed.

Lemma print_report_returns_witness :
  (print_detailed_report (fun _ => "") (Inputs.report_of_call Inputs.call_050)
     Inputs.configs_050).1
  = Ok tt.
Proof.
  apply (print_report_returns Inputs.explainer3 3 (fun _ => "") Inputs.configs_050
           Inputs.chunks2 Inputs.labels3 (Inputs.model_of Inputs.outputs2)
           _ _ _ _ Inputs.configs_050 call_050_returns).
Defined.

(** ** The further properties at concrete inputs *)

Lemma row_050_in_report :
  Inputs.row_050 ∈ rows (Inputs.report_of_call Inputs.call_050).
Proof. vm_compute. apply list_elem_of_here. Defined.

Lemma call_005_returns :
  Inputs.call_005
  = (Ok (Inputs.report_of_call Inputs.call_005, Inputs.iocs_of_call Inputs.call_005),
     Inputs.configs_005, []).
Proof. by vm_compute. Defined.

Lemma call_050_mapped_returns :
  Inputs.call_050_mapped
  = (Ok (Inputs.report_of_call Inputs.call_050_mapped,
         Inputs.iocs_of_call Inputs.call_050_mapped),
     Inputs.configs_050, []).
Proof. by vm_compute. Defined.

Lemma report_nonempty_witness :
  df_empty (Inputs.report_of_call Inputs.call_050) = false
  /\ exists row o, row ∈ rows (Inputs.report_of_call Inputs.call_050)
       /\ row !! 4%nat = Some (COutput o)
       /\ Prediction.score o = (92 # 100)%Q.
Proof.
  apply (report_nonempty Inputs.explainer3 3 Inputs.configs_050 Inputs.chunks2
           Inputs.labels3 (Inputs.model_of Inputs.outputs2) _ _ _ _ (92 # 100)%Q
           call_050_returns).
  - reflexivity.
  - by vm_compute.
  - cbn. lia.
Defined.

Lemma too_few_predictions_witness : is_ok Inputs.call_short.1.1 = false.
Proof.
  apply (too_few_predictions Inputs.explainer3 3 Inputs.configs_050 Inputs.chunks2
           Inputs.labels3 (Inputs.model_of [Prediction.raw "LABEL_3" (92 # 100)])).
  cbn. lia.
Defined.

Lemma unresolved_label_fatal_witness : is_ok Inputs.call_095_unmapped.1.1 = false.
Proof.
  apply (unresolved_label_fatal Inputs.explainer3 3 Inputs.configs_095 Inputs.chunks2
           Inputs.labels3 (Inputs.model_of Inputs.outputs2) 0%Q 1%nat
           (Prediction.raw "LABEL_1" (10 # 100))).
  - reflexivity.
  - cbn. lia.
  - reflexivity.
  - by vm_compute.
  - reflexivity.
Defined.

Lemma skipped_labels_unused_witness : Inputs.call_050 = Inputs.call_050_mapped.
Proof.
  apply (skipped_labels_unused Inputs.explainer3 3 Inputs.configs_050 Inputs.chunks2
           Inputs.labels3 Inputs.labels31 (Inputs.model_of Inputs.outputs2)).
  intros thr o Heff Hin Hle. vm_compute in Heff. injection Heff as <-.
  apply elem_of_cons in Hin as [->|Hin]; [reflexivity|].
  apply elem_of_cons in Hin as [->|Hin]; [|by apply elem_of_nil in Hin].
  exfalso. by vm_compute in Hle.
Defined.

Lemma report_row_prediction_witness :
  exists (i : nat) o o' index class technique name,
    Inputs.row_050 !! 0%nat = Some (CInt (Z.of_nat i + 1))
    /\ Inputs.outputs2 !! i = Some o
    /\ Inputs.row_050 !! 4%nat = Some (COutput o')
    /\ Prediction.label o' = Prediction.label o
    /\ Prediction.score o' = Prediction.score o
    /\ PyStr.split "_" (Prediction.label o) !! 1%nat = Some index
    /\ PyStr.to_int index = Ok class
    /\ label_to_technique Inputs.labels3 !! class = Some technique
    /\ technique_to_name Inputs.labels3 !! technique = Some name
    /\ Prediction.technique o' = Some technique
    /\ Prediction.technique_name o' = Some name
    /\ Prediction.webpage_link o'
       = Some ("https://attack.mitre.org/techniques/" ++ technique ++ "/").
Proof.
  exact (report_row_prediction Inputs.explainer3 3 Inputs.configs_050 Inputs.chunks2
           Inputs.labels3 (Inputs.model_of Inputs.outputs2) _ _ _ _ Inputs.row_050
           call_050_returns row_050_in_report).
Defined.

Lemma report_row_join_witness :
  exists (i : nat) chunk processed ioc o' sb sc,
    chunked_data Inputs.chunks2 !! i = Some chunk
    /\ processed_data Inputs.chunks2 !! i = Some processed
    /\ iocs Inputs.chunks2 !! i = Some ioc
    /\ ShapPipeline_go Inputs.shap3 chunk o' = Ok (sb, sc)
    /\ Inputs.row_050
       = [CInt (Z.of_nat i + 1);
          CStr (PyStr.of_int (Z.of_nat i * 3 + 1) ++ "-"
                ++ PyStr.of_int (Z.of_nat i * 3 + 3));
          CStr chunk; CStr processed; COutput o'; CStr "distilgpt2-512";
          CIocs ioc; CShapBase sb; CShapContribution sc].
Proof.
  exact (report_row_join Inputs.explainer3 3 Inputs.configs_050 Inputs.chunks2
           Inputs.labels3 (Inputs.model_of Inputs.outputs2) _ _ _ _ Inputs.row_050
           call_050_returns row_050_in_report).
Defined.

Lemma ioc_table_all_chunks_witness :
  [CStr "ip"; CStr "2.2.2.2"] ∈ rows (Inputs.iocs_of_call Inputs.call_050).
Proof.
  apply (ioc_table_all_chunks Inputs.explainer3 3 Inputs.configs_050 Inputs.chunks2
           Inputs.labels3 (Inputs.model_of Inputs.outputs2) _ _ _ _
           {[ "ip" := ["1.1.1.1"; "2.2.2.2"] ]} "ip" ["1.1.1.1"; "2.2.2.2"] "2.2.2.2"
           call_050_returns).
  - cbn. apply list_elem_of_further, list_elem_of_here.
  - reflexivity.
  - apply list_elem_of_further, list_elem_of_here.
Defined.

Lemma second_call_same_witness :
  (format_predictions Inputs.explainer3 3 Inputs.call_095.1.2 Inputs.chunks2
     Inputs.labels31 (Inputs.model_of Inputs.outputs2)).1.1
  = Inputs.call_095.1.1
  /\ (format_predictions Inputs.explainer3 3 Inputs.call_095.1.2 Inputs.chunks2
        Inputs.labels31 (Inputs.model_of Inputs.outputs2)).1.2
     = Inputs.call_095.1.2
  /\ (format_predictions Inputs.explainer3 3 Inputs.call_095.1.2 Inputs.chunks2
        Inputs.labels31 (Inputs.model_of Inputs.outputs2)).2
     = [].
Proof.
  apply (second_call_same Inputs.explainer3 3 Inputs.configs_095 Inputs.chunks2
           Inputs.labels31 (Inputs.model_of Inputs.outputs2)).
  repeat constructor; by vm_compute.
Defined.

Lemma stricter_threshold_sublist_witness :
  sublist (rows (Inputs.report_of_call Inputs.call_050_mapped))
    (rows (Inputs.report_of_call Inputs.call_005)).
Proof.
  apply (stricter_threshold_sublist Inputs.explainer3 3 Inputs.configs_005
           Inputs.configs_050 Inputs.chunks2 Inputs.labels31
           (Inputs.model_of Inputs.outputs2) (92 # 100)%Q
           _ (Inputs.iocs_of_call Inputs.call_005) Inputs.configs_005 []
           _ (Inputs.iocs_of_call Inputs.call_050_mapped) Inputs.configs_050 []).
  - reflexivity.
  - by vm_compute.
  - by vm_compute.
  - exact call_005_returns.
  - exact call_050_mapped_returns.
Defined.

(** ** The explanation handed to the plots *)

(** X19.  For the [shap_base] of a returned [ShapPipeline.go],
    [process_shap_values] builds an explanation with the rounded values and
    the base value unchanged and one token per value; its tokens are the
    explainer's without the start-of-word marker but, unlike
    [token_processed], not stripped. *)
Theorem process_shap_values_aligned self text o sb sc :
  ShapPipeline_go self text o = Ok (sb, sc) ->
  e_values (process_shap_values sb) = values sb
  /\ e_base_values (process_shap_values sb) = base_values sb
  /\ length (e_data (process_shap_values sb))
     = length (e_values (process_shap_values sb))
  /\ (forall i tok,
        e_data (explainer self text (Prediction.label o)) !! i = Some tok ->
        e_data (process_shap_values sb) !! i = Some (PyStr.remove_marker tok)
        /\ token_processed sb !! i
           = Some (PyStr.remove_marker (PyStr.strip tok))).
Proof.
  intros Hgo. pose proof (ShapPipeline_go_base _ _ _ _ _ Hgo) as Hsb.
  apply ShapPipeline_go_inv in Hgo as (Hlen & _).
  split; [done|]. split; [done|]. split.
  - cbn. rewrite length_fmap, <- Hlen, Hsb. cbn. by rewrite length_fmap.
  - intros i tok Htok. rewrite Hsb. cbn. by rewrite !list_lookup_fmap, Htok.
Qed.

Lemma process_shap_values_aligned_witness :
  e_values (process_shap_values Inputs.shap_base3) = values Inputs.shap_base3
  /\ e_base_values (process_shap_values Inputs.shap_base3) = 0%Q
  /\ length (e_data (process_shap_values Inputs.shap_base3))
     = length (e_values (process_shap_values Inputs.shap_base3))
  /\ (forall i tok,
        ["a"; " b"; "c"] !! i = Some tok ->
        e_data (process_shap_values Inputs.shap_base3) !! i
        = Some (PyStr.remove_marker tok)
        /\ token_processed Inputs.shap_base3 !! i
           = Some (PyStr.remove_marker (PyStr.strip tok))).
Proof.
  apply (process_shap_values_aligned Inputs.shap3 "a b c"
           (Prediction.raw "LABEL_3" 1) Inputs.shap_base3 Inputs.shap_contribution3).
  by vm_compute.
Defined.

(** ** Negative row positions *)

Lemma iloc_negative (df : DataFrame) (i : Z) :
  (- Z.of_nat (df_len df) <= i < 0)%Z ->
  iloc df i = iloc df (i + Z.of_nat (df_len df)).
Proof.
  intros H. unfold iloc, df_len in *.
  set (n := Z.of_nat (length (rows df))) in *.
  destruct (Z.leb_spec (- n) i); [|lia].
  destruct (Z.ltb_spec i n); [|lia].
  destruct (Z.leb_spec (- n) (i + n)); [|lia].
  destruct (Z.ltb_spec (i + n) n); [|lia].
  destruct (Z.ltb_spec i 0); [|lia].
  destruct (Z.ltb_spec (i + n) 0); [lia|]. done.
Qed.

(** X20.  A negative position within the length of the report is not an
    error: the row is read from the end, and row [i] is printed exactly as
    row [i + len(df)]. *)
Theorem negative_row_from_end (py_repr : cell -> string) (df : DataFrame) (i : Z) :
  (- Z.of_nat (df_len df) <= i < 0)%Z ->
  row_fields df i = row_fields df (i + Z.of_nat (df_len df))
  /\ (is_ok (row_fields df i) = true ->
      _process_shap_explainability_for_row py_repr df i
      = _process_shap_explainability_for_row py_repr df (i + Z.of_nat (df_len df))).
Proof.
  intros H.
  assert (Hf : row_fields df i = row_fields df (i + Z.of_nat (df_len df))).
  { unfold row_fields. by rewrite (iloc_negative df i H). }
  split; [done|]. intros Hok.
  unfold _process_shap_explainability_for_row. rewrite <- Hf.
  by destruct (row_fields df i).
Qed.

Lemma negative_row_from_end_witness :
  _process_shap_explainability_for_row (fun _ => "")
    (Inputs.report_of_call Inputs.call_095) (-1)
  = _process_shap_explainability_for_row (fun _ => "")
      (Inputs.report_of_call Inputs.call_095) 1.
Proof.
  refine (proj2 (negative_row_from_end (fun _ => "")
                   (Inputs.report_of_call Inputs.call_095) (-1) _) _).
  - by vm_compute.
  - by vm_compute.
Defined.
